(** * SHL assessment finder: the recommendation engine of [query_functions.py]

    A shallow embedding of [SHLRecommendationEngine] (catalog ranking by
    vector similarity or by keyword overlap, the heuristic requirement
    extractor, the post-filters and the response assembly), followed by the
    properties of the specification stated over it.

    Conventions of the embedding.
    - Python [str] is [string]: a sequence of 8-bit characters.  [lower],
      [split] and the regular-expression classes are the ASCII fragments of
      the Python ones.
    - Python [int] is [Z]; a numpy [int64] is a [Z] with its wrap-around
      written out ([Py.astype_int]).  A Python or numpy [float] is an exact
      rational [Q]: there is no rounding error, no infinity and no NaN in
      the model, so a score can differ from the float one in its last
      decimal; order, range and sign do not.
    - A [DataFrame] is the list of its rows in order; a ranked frame carries
      for each row its index label and its ['Relevance Score'] cell.
    - An exception is a value: fallible code returns [result]. *)

From Stdlib Require Import List ZArith QArith Qround Bool Arith Lia Lqa.
From Stdlib Require Import Ascii String.
From Stdlib Require Import Sorting.Sorted Sorting.Permutation.
From Stdlib Require OrderedTypeEx.
Import ListNotations.

Open Scope string_scope.
Open Scope Z_scope.

(** ** Exceptions *)

Inductive exn : Type :=
| ValueError (msg : string)
| IndexError (msg : string)
| RequestException (msg : string).

Definition exn_str (e : exn) : string :=
  match e with
  | ValueError m | IndexError m | RequestException m => m
  end.

Inductive result (A : Type) : Type :=
| Ok (a : A)
| Raise (e : exn).

Arguments Ok {A} a.
Arguments Raise {A} e.

Definition bind {A B : Type} (r : result A) (k : A -> result B) : result B :=
  match r with
  | Ok a => k a
  | Raise e => Raise e
  end.

Notation "x <- r ;; k" := (bind r (fun x => k))
  (at level 61, r at next level, right associativity).

Fixpoint mapM {A B : Type} (f : A -> result B) (l : list A) : result (list B) :=
  match l with
  | [] => Ok []
  | a :: l' => b <- f a ;; bs <- mapM f l' ;; Ok (b :: bs)
  end.

(** ** Python built-ins used by the engine *)

Module Py.

(** [str.isspace] on one ASCII character: TAB, LF, VT, FF, CR, the four
    separators FS, GS, RS, US and the space.  The class [\s] of [re]
    contains the same ASCII characters. *)
Definition isspace (c : ascii) : bool :=
  let n := nat_of_ascii c in
  ((9 <=? n) && (n <=? 13) || (28 <=? n) && (n <=? 32))%nat.

(** The class [\w] of [re], ASCII part: letters, digits, underscore. *)
Definition isword (c : ascii) : bool :=
  let n := nat_of_ascii c in
  ((48 <=? n) && (n <=? 57) || (65 <=? n) && (n <=? 90) ||
   (97 <=? n) && (n <=? 122) || (n =? 95))%nat.

Definition lower_char (c : ascii) : ascii :=
  let n := nat_of_ascii c in
  if ((65 <=? n) && (n <=? 90))%nat then ascii_of_nat (n + 32) else c.

(** [s.lower()] *)
Fixpoint lower (s : string) : string :=
  match s with
  | EmptyString => EmptyString
  | String c s' => String (lower_char c) (lower s')
  end.

Fixpoint rev_string (acc : string) (s : string) : string :=
  match s with
  | EmptyString => acc
  | String c s' => rev_string (String c acc) s'
  end.

(** [s.split()]: the maximal runs of non-space characters, in order.
    [cur] is the run being read, last character first. *)
Fixpoint split_from (cur : string) (s : string) : list string :=
  match s with
  | EmptyString =>
      match cur with
      | EmptyString => []
      | _ => [rev_string EmptyString cur]
      end
  | String c s' =>
      if isspace c then
        match cur with
        | EmptyString => split_from EmptyString s'
        | _ => rev_string EmptyString cur :: split_from EmptyString s'
        end
      else split_from (String c cur) s'
  end.

Definition split (s : string) : list string := split_from EmptyString s.

(** [sub in s] *)
Fixpoint contains (sub s : string) : bool :=
  match s with
  | EmptyString => prefix sub EmptyString
  | String _ s' => prefix sub s || contains sub s'
  end.

(** [s.startswith(p)] *)
Definition startswith (s p : string) : bool := prefix p s.

(** [sep.join(l)] *)
Definition join (sep : string) (l : list string) : string := concat sep l.

(** [s[:n]] for a literal [n >= 0] *)
Definition str_take (n : nat) (s : string) : string := substring 0 n s.

(** [l[:k]] and [DataFrame.head(k)]: the first [k] elements, and for a
    negative [k] all but the last [-k]. *)
Definition slice_to {A : Type} (k : Z) (l : list A) : list A :=
  if 0 <=? k then firstn (Z.to_nat k) l
  else firstn (List.length l - Z.to_nat (- k)) l.

(** [max(l)] of a list of integers; [ValueError] on the empty list. *)
Definition max (l : list Z) : result Z :=
  match l with
  | [] => Raise (ValueError "max() arg is an empty sequence")
  | x :: l' => Ok (fold_left Z.max l' x)
  end.

(** [Series.astype(int)] on an integer cell: the cast to [int64], which
    wraps modulo 2^64 (a [uint64] cell of 2^63 becomes -2^63). *)
Definition astype_int (z : Z) : Z := (z + 2 ^ 63) mod 2 ^ 64 - 2 ^ 63.

(** [l[i]] *)
Definition getitem {A : Type} (l : list A) (i : nat) : result A :=
  match nth_error l i with
  | Some a => Ok a
  | None => Raise (IndexError "list index out of range")
  end.

(** Rounding to the nearest integer, ties to the even one. *)
Definition round_half_even (x : Q) : Z :=
  let f := Qfloor x in
  match (x - inject_Z f ?= 1 # 2)%Q with
  | Lt => f
  | Gt => f + 1
  | Eq => if Z.even f then f else f + 1
  end.

(** [round(x, 1)]: one decimal, ties to even. *)
Definition round1 (x : Q) : Q := inject_Z (round_half_even (x * 10)) / 10.

(** [re.sub(r'\s+', ' ', s)]: every maximal run of white space becomes
    one space.  [inrun] tells that the previous character was a space
    character of a run already replaced. *)
Fixpoint collapse_from (inrun : bool) (s : string) : string :=
  match s with
  | EmptyString => EmptyString
  | String c s' =>
      if isspace c then
        if inrun then collapse_from true s'
        else String " "%char (collapse_from true s')
      else String c (collapse_from false s')
  end.

Definition collapse_spaces (s : string) : string := collapse_from false s.

End Py.

(** ** Regular expressions of the requirement extractor

    The three skill patterns all have the shape [\b(a1|a2|...)\b] where an
    alternative is a sequence of literal characters and optional literal
    characters ([\.?]).  [findall] follows the backtracking matcher of
    [re]: at each position the alternatives are tried in order, an optional
    character is tried present before absent, and the first attempt that
    ends on a word boundary is the match; the scan resumes after it. *)

Module Re.

Inductive atom : Type :=
| Lit (c : ascii)
| Opt (c : ascii).

Definition alternative : Type := list atom.

Fixpoint lits (s : string) : alternative :=
  match s with
  | EmptyString => []
  | String c s' => Lit c :: lits s'
  end.

(** Character comparison under [re.IGNORECASE]. *)
Definition eq_char (c d : ascii) : bool :=
  Ascii.eqb (Py.lower_char c) (Py.lower_char d).

(** The lengths of the prefixes of [s] matched by [p], in the order the
    matcher tries them. *)
Fixpoint match_atoms (p : alternative) (s : string) : list nat :=
  match p with
  | [] => [O]
  | Lit c :: p' =>
      match s with
      | String d s' => if eq_char c d then map S (match_atoms p' s') else []
      | EmptyString => []
      end
  | Opt c :: p' =>
      match s with
      | String d s' => if eq_char c d then map S (match_atoms p' s') else []
      | EmptyString => []
      end ++ match_atoms p' s
  end.

Definition isword_opt (c : option ascii) : bool :=
  match c with
  | Some c => Py.isword c
  | None => false
  end.

(** [\b] between the character [before] and the character [after]. *)
Definition boundary (before after : option ascii) : bool :=
  xorb (isword_opt before) (isword_opt after).

(** The character before offset [n] of [s], [prev] being the character
    before [s] itself. *)
Definition char_before (prev : option ascii) (s : string) (n : nat)
  : option ascii :=
  match n with
  | O => prev
  | S m => get m s
  end.

(** The length of the match of [\b(alts)\b] that starts at the head of
    [s], if there is one. *)
Definition match_here (alts : list alternative) (prev : option ascii)
    (s : string) : option nat :=
  if boundary prev (get 0 s) then
    find (fun n => boundary (char_before prev s n) (get n s))
         (flat_map (fun a => match_atoms a s) alts)
  else None.

(** [skip] counts the characters of [s] still inside the previous match. *)
Fixpoint findall_from (alts : list alternative) (prev : option ascii)
    (skip : nat) (s : string) : list string :=
  match s with
  | EmptyString => []
  | String c s' =>
      match skip with
      | S k => findall_from alts (Some c) k s'
      | O =>
          match match_here alts prev s with
          | Some n => substring 0 n s :: findall_from alts (Some c) (pred n) s'
          | None => findall_from alts (Some c) O s'
          end
      end
  end.

(** [re.findall(pattern, s, re.IGNORECASE)] for a pattern with one group
    between two [\b]: the list of the group's texts. *)
Definition findall (alts : list alternative) (s : string) : list string :=
  findall_from alts None O s.

End Re.

(** ** The catalog *)

(** One line of [SHL_catalog.csv] after [fillna('')].  [Duration] is the
    integer of the cell; a catalog with a blank or non-numeric duration,
    on which [astype(int)] raises, is outside the model. *)
Record Row : Type := {
  Assessment_Name : string;
  URL : string;
  Duration : Z;
  Remote_Testing_Support : string;
  Adaptive_IRT : string;
  Test_Type : string;
  Skills : string;
  Description : string
}.

(** A row of a result frame: the index label it keeps from the catalog,
    the catalog row and the ['Relevance Score'] column. *)
Record Ranked : Type := {
  label : nat;
  row : Row;
  Relevance_Score : Q
}.

(** The dictionary returned by the requirement extractor. *)
Record Requirements : Type := {
  skills : list string;
  experience_level : string;
  test_types : list string;
  duration_preference : string;
  key_responsibilities : list string
}.

(** The engine object.  [model] stands for [self.model] together with
    [self.embeddings] (they are set together or not at all): given the
    combined text of a row and the query it yields the cosine of their
    encodings, that is one entry of
    [np.dot(embeddings, q) / (norm(embeddings, axis=1) * norm(q))].
    An encoder that raises, or whose result has another shape (as may be
    on an empty catalog), is outside the model.
    [gemini_client], when present, maps the prompt text to the parsed JSON
    answer, or to [None] when the call or the parsing raises; an answer
    that parses but is not an object of this shape is outside the model. *)
Record Engine : Type := {
  catalog : list Row;
  model : option (string -> string -> Q);
  gemini_client : option (string -> option Requirements)
}.

(** The dictionary returned by [get_recommendations]. *)
Record Response : Type := {
  recommendations : list Ranked;
  job_requirements : option Requirements;
  search_query : option string;
  total_found : nat
}.

(** ** [np.argsort]

    The indices that sort the keys in ascending order.  numpy's default
    kind promises no order among equal keys and does not keep one; the
    model has to pick one and keeps them in index order, as numpy's stable
    kind does.  What is stated of the code below holds for every order of
    equal keys, except where a statement names this choice. *)

Section Argsort.

Context {A : Type} (leb : A -> A -> bool).

Fixpoint insert_key (x : nat * A) (l : list (nat * A)) : list (nat * A) :=
  match l with
  | [] => [x]
  | y :: l' =>
      if leb (snd x) (snd y) then x :: l else y :: insert_key x l'
  end.

Definition sort_keys (l : list (nat * A)) : list (nat * A) :=
  fold_right insert_key [] l.

Definition enumerate (a : list A) : list (nat * A) :=
  combine (seq 0 (List.length a)) a.

Definition argsort (a : list A) : list nat :=
  map fst (sort_keys (enumerate a)).

End Argsort.

(** ** The engine's methods *)

(** [_get_combined_text], also the text encoded by [_compute_embeddings]. *)
Definition _get_combined_text (r : Row) : string :=
  Assessment_Name r ++ " " ++ Test_Type r ++ " " ++ Skills r ++ " "
    ++ Description r.

(** [catalog.iloc[top_indices]]: the rows at the given positions, each
    with its label. *)
Definition iloc (cat : list Row) (idx : list nat) : result (list (nat * Row)) :=
  mapM (fun i => r <- Py.getitem cat i ;; Ok (i, r)) idx.

(** [results['Relevance Score'] = values]: the two lengths must agree. *)
Fixpoint set_relevance (rows : list (nat * Row)) (values : list Q)
  : result (list Ranked) :=
  match rows, values with
  | [], [] => Ok []
  | (i, r) :: rows', v :: values' =>
      rest <- set_relevance rows' values' ;;
      Ok ({| label := i; row := r; Relevance_Score := v |} :: rest)
  | _, _ => Raise (ValueError "Length of values does not match length of index")
  end.

(** The raw score of a row: how many query terms occur in its text. *)
Definition term_count (query_terms : list string) (combined : string) : Z :=
  Z.of_nat (List.length (filter (fun term => Py.contains term combined) query_terms)).

Definition _keyword_search (self : Engine) (query : string) (top_k : Z)
  : result (list Ranked) :=
  let query_terms := Py.split (Py.lower query) in
  let scores :=
    map (fun r => term_count query_terms (Py.lower (_get_combined_text r)))
        (catalog self) in
  let top_indices := Py.slice_to top_k (rev (argsort Z.leb scores)) in
  results <- iloc (catalog self) top_indices ;;
  m <- Py.max scores ;;
  let max_score := if 0 <? m then m else 1 in
  values <- mapM (fun i => s <- Py.getitem scores i ;;
                           Ok (Py.round1 (inject_Z s / inject_Z max_score * 100)))
                 top_indices ;;
  set_relevance results values.

Definition semantic_search (self : Engine) (query : string) (top_k : Z)
  : result (list Ranked) :=
  match model self with
  | None => _keyword_search self query top_k
  | Some cosine =>
      let similarities :=
        map (fun r => cosine (_get_combined_text r) query) (catalog self) in
      let top_indices := Py.slice_to top_k (rev (argsort Qle_bool similarities)) in
      results <- iloc (catalog self) top_indices ;;
      values <- mapM (fun i => s <- Py.getitem similarities i ;;
                               Ok (Py.round1 (s * 100)))
                     top_indices ;;
      set_relevance results values
  end.

Definition filter_by_duration (df : list Ranked) (max_duration : Z) : list Ranked :=
  filter (fun r => Py.astype_int (Duration (row r)) <=? max_duration) df.

Definition filter_by_test_type (df : list Ranked) (types : list string)
  : list Ranked :=
  match types with
  | [] => df
  | _ => filter (fun r => existsb (String.eqb (Test_Type (row r))) types) df
  end.

Definition filter_by_remote (df : list Ranked) (remote_only : bool) : list Ranked :=
  if remote_only
  then filter (fun r => String.eqb (Remote_Testing_Support (row r)) "Yes") df
  else df.

Definition skill_patterns : list (list Re.alternative) :=
  [ [ Re.lits "python"; Re.lits "java"; Re.lits "javascript"; Re.lits "sql";
      Re.lits "react";
      (Re.lits "node" ++ [Re.Opt "."%char] ++ Re.lits "js")%list;
      Re.lits "angular"; Re.lits "typescript" ];
    [ Re.lits "problem solving"; Re.lits "communication"; Re.lits "teamwork";
      Re.lits "leadership"; Re.lits "analytical" ];
    [ Re.lits "data analysis"; Re.lits "machine learning"; Re.lits "cloud";
      Re.lits "aws"; Re.lits "azure"; Re.lits "gcp" ] ].

(** The prompt sent to the language model, as far as it depends on the
    job text: the first 3000 characters. *)
Definition prompt_text (text : string) : string := Py.str_take 3000 text.

(** [list(set(skills))]; Python leaves the order of the result open, the
    model keeps the last occurrence of each match, in order. *)
Definition heuristic_requirements (text : string) : Requirements :=
  let text_lower := Py.lower text in
  let skills := flat_map (fun pattern => Re.findall pattern text_lower)
                         skill_patterns in
  {| skills := nodup string_dec skills;
     experience_level := "mid";
     test_types := ["Coding"; "Cognitive"];
     duration_preference := "medium";
     key_responsibilities := [] |}.

Definition extract_job_requirements (self : Engine) (text : string)
  : Requirements :=
  match gemini_client self with
  | Some generate =>
      match generate (prompt_text text) with
      | Some parsed => parsed
      | None => heuristic_requirements text
      end
  | None => heuristic_requirements text
  end.

(** Python's truth value of an optional string, list or integer. *)
Definition truthy_str (s : option string) : bool :=
  match s with
  | Some (String _ _) => true
  | _ => false
  end.

Definition truthy_list {A : Type} (l : option (list A)) : bool :=
  match l with
  | Some (_ :: _) => true
  | _ => false
  end.

Definition truthy_int (n : option Z) : bool :=
  match n with
  | Some n => negb (n =? 0)
  | None => false
  end.

Section Collaborators.

(** The web collaborators: [requests.get(url, ...)] followed by
    [raise_for_status()] yields the body of the page or raises;
    [soup_get_text] stands for parsing the body with BeautifulSoup,
    dropping the script, style, header, footer and nav elements and
    [get_text(separator=' ', strip=True)]. *)
Variable requests_get : string -> result string.
Variable soup_get_text : string -> result string.

Definition extract_text_from_url (url : string) : string :=
  match (body <- requests_get url ;;
         text <- soup_get_text body ;;
         Ok (Py.str_take 5000 (Py.collapse_spaces text))) with
  | Ok text => text
  | Raise e => "Error extracting text: " ++ exn_str e
  end.

(** Lines 186-196 of [get_recommendations]: the search query, the job
    requirements and the test types after the URL has been looked at. *)
Definition resolve_query (self : Engine) (query url : option string)
    (types : option (list string))
  : option string * option Requirements * option (list string) :=
  match url with
  | Some u =>
      if truthy_str url then
        let extracted_text := extract_text_from_url u in
        if negb (Py.startswith extracted_text "Error") then
          let reqs := extract_job_requirements self extracted_text in
          match skills reqs with
          | _ :: _ =>
              (Some (Py.join " " (skills reqs)),
               Some reqs,
               match test_types reqs with
               | _ :: _ => if negb (truthy_list types)
                           then Some (test_types reqs) else types
               | [] => types
               end)
          | [] => (query, Some reqs, types)
          end
        else (query, None, types)
      else (query, None, types)
  | None => (query, None, types)
  end.

(** Lines 198-202: the candidates before the filters. *)
Definition candidates (self : Engine) (search_query : option string)
    (top_k : Z) : result (list Ranked) :=
  match search_query with
  | Some (String c q) =>
      semantic_search self (String c q) (Z.min (top_k * 2) 50)
  | _ =>
      let results := Py.slice_to top_k (enumerate (catalog self)) in
      set_relevance results (repeat 100%Q (List.length results))
  end.

(** Lines 204-209: the three filters, each behind its guard. *)
Definition apply_filters (results : list Ranked) (max_duration : option Z)
    (types : option (list string)) (remote_only : bool) : list Ranked :=
  let results :=
    match max_duration with
    | Some d => if truthy_int max_duration
                then filter_by_duration results d else results
    | None => results
    end in
  let results :=
    match types with
    | Some t => if truthy_list types
                then filter_by_test_type results t else results
    | None => results
    end in
  if remote_only then filter_by_remote results remote_only else results.

Definition get_recommendations (self : Engine) (query url : option string)
    (max_duration : option Z) (types : option (list string))
    (remote_only : bool) (top_k : Z) : result Response :=
  let '(search_query, job_requirements, types) :=
    resolve_query self query url types in
  results <- candidates self search_query top_k ;;
  let results := apply_filters results max_duration types remote_only in
  let results := Py.slice_to top_k results in
  Ok {| recommendations := results;
        job_requirements := job_requirements;
        search_query := search_query;
        total_found := List.length results |}.

End Collaborators.

(** ** Properties the specification talks about *)

(** Relevance scores never go up along a result list. *)
Definition non_increasing (res : list Ranked) : Prop :=
  StronglySorted (fun a b => (Relevance_Score b <= Relevance_Score a)%Q) res.

(** Records with equal relevance appear in catalog order. *)
Definition ties_in_catalog_order (res : list Ranked) : Prop :=
  forall (i j : nat) (a b : Ranked),
    (i < j)%nat -> nth_error res i = Some a -> nth_error res j = Some b ->
    (Relevance_Score a == Relevance_Score b)%Q -> (label a < label b)%nat.

(** A result list ordered by a raw score [raw], highest first, with rows
    of equal raw score as the index sort of the model leaves them: the
    later catalog row first.  An auxiliary of the proofs, not a property of
    the code: [descending_by] is the part of it that holds of every index
    sort. *)
Definition ranked_by (raw : Row -> Q) (res : list Ranked) : Prop :=
  StronglySorted
    (fun a b => (raw (row b) <= raw (row a))%Q /\
                ((raw (row a) <= raw (row b))%Q -> (label b < label a)%nat))
    res.

(** A result list in descending order of a raw score [raw]; nothing is
    said of rows of equal raw score. *)
Definition descending_by (raw : Row -> Q) (res : list Ranked) : Prop :=
  StronglySorted (fun a b => (raw (row b) <= raw (row a))%Q) res.

(** The integers an [int64] holds. *)
Definition int64 (z : Z) : Prop := - 2 ^ 63 <= z < 2 ^ 63.

(** Every row of a result frame is the catalog row its label names. *)
Definition from_catalog (cat : list Row) (res : list Ranked) : Prop :=
  Forall (fun r => nth_error cat (label r) = Some (row r)) res.

(** The raw scores of the two strategies, as functions of a catalog row. *)
Definition keyword_raw (query : string) (r : Row) : Z :=
  term_count (Py.split (Py.lower query)) (Py.lower (_get_combined_text r)).

Definition keyword_max (cat : list Row) (query : string) : Z :=
  fold_right Z.max 0 (map (keyword_raw query) cat).

(** The divisor and the relevance of the keyword strategy, row by row. *)
Definition keyword_divisor (cat : list Row) (query : string) : Z :=
  if 0 <? keyword_max cat query then keyword_max cat query else 1.

Definition keyword_relevance (cat : list Row) (query : string) (r : Row) : Q :=
  Py.round1 (inject_Z (keyword_raw query r)
             / inject_Z (keyword_divisor cat query) * 100).

(** The order [argsort] puts two (index, key) pairs in: ascending keys,
    and ascending indices among equal keys. *)
Definition key_before {A : Type} (leb : A -> A -> bool) (x y : nat * A) : Prop :=
  leb (snd x) (snd y) = true /\
  (leb (snd y) (snd x) = true -> (fst x < fst y)%nat).

(** The frame of the branch without search query: the head of the
    catalog, every row at relevance 100. *)
Definition default_candidates (cat : list Row) (top_k : Z) : list Ranked :=
  map (fun p => {| label := fst p; row := snd p; Relevance_Score := 100 |})
      (Py.slice_to top_k (enumerate cat)).

(** The enhanced path gives nothing for [text]: there is no client, or its
    call fails. *)
Definition enhancement_unavailable (self : Engine) (text : string) : Prop :=
  match gemini_client self with
  | None => True
  | Some generate => generate (prompt_text text) = None
  end.

(** ** The rest of the engine and its callers *)

(** [argsort(keys)[::-1][:top_k]] with the key at each index. *)
Definition top_pairs {A : Type} (leb : A -> A -> bool) (keys : list A) (top_k : Z)
  : list (nat * A) :=
  Py.slice_to top_k (rev (sort_keys leb (enumerate keys))).

(** The three guarded filters of [get_recommendations] as one test on a
    row: each filter that is switched on must accept it. *)
Definition passes (max_duration : option Z) (types : option (list string))
    (remote_only : bool) (r : Ranked) : bool :=
  match max_duration with
  | Some d => (d =? 0) || (Py.astype_int (Duration (row r)) <=? d)
  | None => true
  end &&
  match types with
  | Some (t :: ts) => existsb (String.eqb (Test_Type (row r))) (t :: ts)
  | _ => true
  end &&
  (if remote_only then String.eqb (Remote_Testing_Support (row r)) "Yes" else true).

(** [Series.unique()]: the distinct values in order of first appearance;
    [seen] holds the values met so far. *)
Fixpoint unique_from (seen : list string) (l : list string) : list string :=
  match l with
  | [] => []
  | x :: l' =>
      if in_dec string_dec x seen then unique_from seen l'
      else x :: unique_from (x :: seen) l'
  end.

Definition unique (l : list string) : list string := unique_from [] l.

(** [sorted(l)] on strings: a stable sort by character codes. *)
Definition sorted (l : list string) : list string :=
  map snd (sort_keys String.leb (enumerate l)).

Definition get_test_types (self : Engine) : list string :=
  sorted (unique (map Test_Type (catalog self))).

(** [Series.mean()] of integers: [None] stands for the NaN pandas gives on
    an empty column. *)
Definition mean (l : list Z) : option Q :=
  match l with
  | [] => None
  | _ => Some (Qdiv (inject_Z (fold_right Z.add 0 l))
                   (inject_Z (Z.of_nat (List.length l))))
  end.

Module Stats.

(** The dictionary of [get_catalog_stats]; the inner dictionary
    [test_types] is given by its lookup. *)
Record t : Type := {
  total_assessments : nat;
  test_types : string -> option nat;
  avg_duration : option Q;
  remote_supported : nat;
  adaptive_tests : nat
}.

End Stats.

(** [value_counts().to_dict()], as a lookup: a value that does not occur
    is not a key. *)
Definition value_counts (l : list string) (key : string) : option nat :=
  match count_occ string_dec l key with
  | O => None
  | n => Some n
  end.

Definition get_catalog_stats (self : Engine) : Stats.t :=
  {| Stats.total_assessments := List.length (catalog self);
     Stats.test_types := value_counts (map Test_Type (catalog self));
     Stats.avg_duration :=
       option_map Py.round1
         (mean (map (fun r => Py.astype_int (Duration r)) (catalog self)));
     Stats.remote_supported :=
       List.length (filter (fun r => String.eqb (Remote_Testing_Support r) "Yes")
                           (catalog self));
     Stats.adaptive_tests :=
       List.length (filter (fun r => String.eqb (Adaptive_IRT r) "Yes")
                           (catalog self)) |}.

(** The FastAPI application of [main.py]. *)
Module Api.

Record RecommendationRequest : Type := {
  query : option string;
  url : option string;
  max_duration : option Z;
  test_types : option (list string);
  remote_only : bool;
  top_k : Z
}.

(** What the client of a route gets: the returned value (status 200), a
    raised [HTTPException], or an exception nobody catches, which FastAPI
    answers with status 500. *)
Inductive http_response (A : Type) : Type :=
| Http200 (body : A)
| HTTPException (status_code : Z) (detail : string)
| Unhandled (e : exn).

Arguments Http200 {A} body.
Arguments HTTPException {A} status_code detail.
Arguments Unhandled {A} e.

(** The handler of [POST /recommend]; [engine] is what [get_engine()]
    returns. *)
Definition get_recommendations
    (requests_get soup_get_text : string -> result string) (engine : Engine)
    (request : RecommendationRequest) : http_response Response :=
  if negb (truthy_str (query request)) && negb (truthy_str (url request)) then
    HTTPException 400 "Either 'query' or 'url' must be provided"
  else
    match get_recommendations requests_get soup_get_text engine
            (query request) (url request) (max_duration request)
            (test_types request) (remote_only request) (top_k request) with
    | Ok results => Http200 results
    | Raise e => Unhandled e
    end.

End Api.

(** A text without white space other than single spaces; [prev_space]
    tells that the character before was a space. *)
Fixpoint single_spaced_from (prev_space : bool) (s : string) : bool :=
  match s with
  | EmptyString => true
  | String c s' =>
      if Py.isspace c
      then Ascii.eqb c " " && negb prev_space && single_spaced_from true s'
      else single_spaced_from false s'
  end.

(** The texts an alternative of a pattern can match, letter case apart. *)
Fixpoint expansions (p : Re.alternative) : list string :=
  match p with
  | [] => [EmptyString]
  | Re.Lit c :: p' => map (String c) (expansions p')
  | Re.Opt c :: p' => (map (String c) (expansions p') ++ expansions p')%list
  end.

Definition skill_vocabulary : list string :=
  flat_map (flat_map expansions) skill_patterns.

(** ** Sample data *)

Definition python_row : Row :=
  {| Assessment_Name := "Python Coding"; URL := ""; Duration := 30;
     Remote_Testing_Support := "Yes"; Adaptive_IRT := "No";
     Test_Type := "Coding"; Skills := "python, sql"; Description := "" |}.

Definition personality_row : Row :=
  {| Assessment_Name := "Workplace Personality"; URL := ""; Duration := 60;
     Remote_Testing_Support := "No"; Adaptive_IRT := "No";
     Test_Type := "Personality"; Skills := "teamwork"; Description := "" |}.

Definition java_row : Row :=
  {| Assessment_Name := "Java Coding"; URL := ""; Duration := 45;
     Remote_Testing_Support := "Yes"; Adaptive_IRT := "No";
     Test_Type := "Coding"; Skills := "java, python"; Description := "" |}.

(** An engine without sentence-transformer model and without Gemini client. *)
Definition keyword_engine (cat : list Row) : Engine :=
  {| catalog := cat; model := None; gemini_client := None |}.

(** An engine whose encoder puts every row text at cosine [-1/2] of every
    query. *)
Definition opposed_engine (cat : list Row) : Engine :=
  {| catalog := cat; model := Some (fun _ _ => - (1 # 2))%Q; gemini_client := None |}.

(** Web collaborators for the examples: no page can be fetched. *)
Definition offline (url : string) : result string :=
  Raise (RequestException "connection refused").

Definition plain_text (body : string) : result string := Ok body.

Definition sample_catalog : list Row := [python_row; personality_row; java_row].

(** An engine whose encoder puts a row text at cosine 0.9 of a query it
    contains and at cosine 0.1 of any other query. *)
Definition containment (text query : string) : Q :=
  if Py.contains (Py.lower query) (Py.lower text) then 9 # 10 else 1 # 10.

Definition containment_engine (cat : list Row) : Engine :=
  {| catalog := cat; model := Some containment; gemini_client := None |}.

(** Pages for the examples: a job posting, and a page whose text begins
    with the word Error. *)
Definition python_page (url : string) : result string :=
  Ok "We need a   Python developer with SQL".

Definition error_page (url : string) : result string :=
  Ok "Error budgets for site reliability engineers using Python".

(** * Proofs *)

(** ** The error monad and list helpers *)

Lemma mapM_ok {A B : Type} (f : A -> result B) (g : A -> B) (l : list A) :
  Forall (fun a => f a = Ok (g a)) l -> mapM f l = Ok (map g l).
Proof.
  induction 1 as [|a l Ha _ IH]; simpl; [reflexivity|].
  now rewrite Ha, IH.
Qed.

Lemma slice_to_map {A B : Type} (f : A -> B) (k : Z) (l : list A) :
  Py.slice_to k (map f l) = map f (Py.slice_to k l).
Proof.
  unfold Py.slice_to. rewrite length_map.
  destruct (0 <=? k); apply firstn_map.
Qed.

Lemma slice_to_firstn {A : Type} (k : Z) (l : list A) :
  exists n, Py.slice_to k l = firstn n l.
Proof. unfold Py.slice_to. destruct (0 <=? k); eauto. Qed.

Lemma slice_to_length {A : Type} (k : Z) (l : list A) :
  0 <= k -> List.length (Py.slice_to k l) = Nat.min (Z.to_nat k) (List.length l).
Proof.
  intros Hk. unfold Py.slice_to.
  destruct (Z.leb_spec 0 k); [apply length_firstn | lia].
Qed.

Lemma firstn_In {A : Type} (n : nat) (l : list A) (x : A) :
  In x (firstn n l) -> In x l.
Proof.
  revert l. induction n as [|n IH]; intros [|a l]; simpl; try tauto.
  intros [->|H]; auto.
Qed.

Lemma firstn_Forall {A : Type} (P : A -> Prop) (n : nat) (l : list A) :
  Forall P l -> Forall P (firstn n l).
Proof.
  rewrite !Forall_forall. intros H x Hx. apply H. eapply firstn_In; eauto.
Qed.

Lemma firstn_StronglySorted {A : Type} (R : A -> A -> Prop) (n : nat) (l : list A) :
  StronglySorted R l -> StronglySorted R (firstn n l).
Proof.
  revert l. induction n as [|n IH]; intros [|a l] H; simpl; try constructor.
  - apply IH. now inversion H.
  - apply firstn_Forall. now inversion H.
Qed.

Lemma StronglySorted_app {A : Type} (R : A -> A -> Prop) (l1 l2 : list A) :
  StronglySorted R l1 -> StronglySorted R l2 ->
  (forall x y, In x l1 -> In y l2 -> R x y) ->
  StronglySorted R (l1 ++ l2)%list.
Proof.
  induction l1 as [|a l1 IH]; simpl; intros H1 H2 H12; [assumption|].
  inversion H1 as [|? ? Hs Hf]; subst. constructor.
  - apply IH; auto.
  - apply Forall_app. split; [assumption|].
    apply Forall_forall. intros y Hy. apply H12; auto.
Qed.

Lemma StronglySorted_rev {A : Type} (R : A -> A -> Prop) (l : list A) :
  StronglySorted R l -> StronglySorted (fun x y => R y x) (rev l).
Proof.
  induction 1 as [|a l Hs IH Hf]; simpl; [constructor|].
  apply StronglySorted_app; [assumption | repeat constructor |].
  intros x y Hx [<-|[]]. rewrite Forall_forall in Hf.
  apply Hf. now apply in_rev.
Qed.

Lemma StronglySorted_impl {A : Type} (R S : A -> A -> Prop) (l : list A) :
  (forall x y, In x l -> In y l -> R x y -> S x y) ->
  StronglySorted R l -> StronglySorted S l.
Proof.
  intros H Hs. induction Hs as [|a l Hs IH Hf]; constructor.
  - apply IH. intros; apply H; simpl; auto.
  - rewrite Forall_forall in *. intros y Hy. apply H; simpl; auto.
Qed.

Lemma StronglySorted_Forall2 {A B : Type} (R : A -> A -> Prop) (S : B -> B -> Prop)
    (T : A -> B -> Prop) (l : list A) (m : list B) :
  (forall a a' b b', T a b -> T a' b' -> R a a' -> S b b') ->
  Forall2 T l m -> StronglySorted R l -> StronglySorted S m.
Proof.
  intros H HT. induction HT as [|a b l m Hab HT IH]; intros Hs; constructor.
  - apply IH. now inversion Hs.
  - inversion Hs as [|? ? _ Hf]; subst. clear IH Hs.
    induction HT as [|a' b' l m Hab' HT IH]; constructor.
    + inversion Hf; subst. eapply H; eauto.
    + apply IH. now inversion Hf.
Qed.

(** ** [argsort] sorts, and keeps equal keys in index order *)

Section ArgsortFacts.

Context {A : Type} (leb : A -> A -> bool).
Hypothesis leb_total : forall x y, leb x y = true \/ leb y x = true.
Hypothesis leb_trans :
  forall x y z, leb x y = true -> leb y z = true -> leb x z = true.

Lemma insert_key_perm (x : nat * A) (l : list (nat * A)) :
  Permutation (insert_key leb x l) (x :: l).
Proof.
  induction l as [|y l IH]; simpl; [reflexivity|].
  destruct (leb (snd x) (snd y)); [reflexivity|].
  rewrite IH. apply perm_swap.
Qed.

Lemma sort_keys_perm (l : list (nat * A)) : Permutation (sort_keys leb l) l.
Proof.
  induction l as [|x l IH]; simpl; [reflexivity|].
  rewrite insert_key_perm. now constructor.
Qed.

Lemma insert_key_sorted (x : nat * A) (l : list (nat * A)) :
  StronglySorted (key_before leb) l ->
  Forall (fun y => (fst x < fst y)%nat) l ->
  StronglySorted (key_before leb) (insert_key leb x l).
Proof.
  induction 1 as [|y l Hs IH Hy]; intros Hx; simpl.
  - repeat constructor.
  - inversion Hx as [|? ? Hxy Hxl]; subst.
    destruct (leb (snd x) (snd y)) eqn:E.
    + constructor; [now constructor|].
      constructor; [split; auto|].
      rewrite Forall_forall in *. intros z Hz. split.
      * apply leb_trans with (snd y); [assumption | apply (Hy z Hz)].
      * intros _. now apply Hxl.
    + constructor; [now apply IH|].
      rewrite Forall_forall in *. intros z Hz.
      apply (Permutation_in _ (insert_key_perm x l)) in Hz.
      destruct Hz as [<-|Hz]; [|now apply Hy].
      split.
      * destruct (leb_total (snd x) (snd y)); congruence.
      * congruence.
Qed.

Lemma sort_keys_sorted (l : list (nat * A)) :
  StronglySorted (fun x y => (fst x < fst y)%nat) l ->
  StronglySorted (key_before leb) (sort_keys leb l).
Proof.
  induction 1 as [|x l Hs IH Hx]; simpl; [constructor|].
  apply insert_key_sorted; [assumption|].
  rewrite Forall_forall in *. intros y Hy. apply Hx.
  now apply (Permutation_in _ (sort_keys_perm l)).
Qed.

End ArgsortFacts.

(** ** Rounding *)

Lemma round_half_even_cases (x : Q) :
  Py.round_half_even x = Qfloor x \/ Py.round_half_even x = Qfloor x + 1.
Proof.
  unfold Py.round_half_even.
  destruct (x - inject_Z (Qfloor x) ?= 1 # 2)%Q; auto.
  destruct (Z.even (Qfloor x)); auto.
Qed.

Lemma round_half_even_mono (x y : Q) :
  (x <= y)%Q -> Py.round_half_even x <= Py.round_half_even y.
Proof.
  intros Hxy. pose proof (Qfloor_resp_le _ _ Hxy) as Hf.
  destruct (Z.eq_dec (Qfloor x) (Qfloor y)) as [E|N].
  - unfold Py.round_half_even. rewrite <- E.
    destruct (Qcompare_spec (x - inject_Z (Qfloor x)) (1 # 2)) as [Hx|Hx|Hx];
      destruct (Qcompare_spec (y - inject_Z (Qfloor x)) (1 # 2)) as [Hy|Hy|Hy];
      try destruct (Z.even (Qfloor x)); try lia; exfalso; lra.
  - destruct (round_half_even_cases x), (round_half_even_cases y); lia.
Qed.

Lemma round_half_even_eq (x y : Q) :
  (x == y)%Q -> Py.round_half_even x = Py.round_half_even y.
Proof.
  intros E. apply Z.le_antisymm; apply round_half_even_mono; rewrite E; apply Qle_refl.
Qed.

Lemma round_half_even_Z (z : Z) : Py.round_half_even (inject_Z z) = z.
Proof.
  unfold Py.round_half_even. rewrite Qfloor_Z.
  destruct (Qcompare_spec (inject_Z z - inject_Z z) (1 # 2)) as [H|H|H];
    try reflexivity; exfalso; lra.
Qed.

Lemma round1_mono (x y : Q) : (x <= y)%Q -> (Py.round1 x <= Py.round1 y)%Q.
Proof.
  intros H. unfold Py.round1, Qdiv.
  apply Qmult_le_compat_r; [|discriminate].
  rewrite <- Zle_Qle. apply round_half_even_mono. lra.
Qed.

Lemma round1_Z (z : Z) : (Py.round1 (inject_Z z) == inject_Z z)%Q.
Proof.
  unfold Py.round1.
  rewrite (round_half_even_eq _ (inject_Z (z * 10))).
  - rewrite round_half_even_Z, inject_Z_mult. field.
  - rewrite inject_Z_mult. reflexivity.
Qed.

Lemma round1_between (a b : Z) (x : Q) :
  (inject_Z a <= x <= inject_Z b)%Q ->
  (inject_Z a <= Py.round1 x <= inject_Z b)%Q.
Proof.
  intros [Ha Hb]. split.
  - rewrite <- (round1_Z a). now apply round1_mono.
  - rewrite <- (round1_Z b). now apply round1_mono.
Qed.

(** ** Enumerating and looking up *)

Lemma enumerate_from_facts {A : Type} (a : list A) (k : nat) :
  StronglySorted (fun x y => (fst x < fst y)%nat) (combine (seq k (List.length a)) a) /\
  Forall (fun p => (k <= fst p)%nat /\ nth_error a (fst p - k) = Some (snd p))
         (combine (seq k (List.length a)) a).
Proof.
  revert k. induction a as [|x a IH]; intros k; simpl.
  - split; constructor.
  - destruct (IH (S k)) as [Hs Hf]. split.
    + constructor; [assumption|].
      eapply Forall_impl; [|exact Hf]. simpl. intros p [Hp _]. lia.
    + constructor.
      * simpl. rewrite Nat.sub_diag. auto.
      * eapply Forall_impl; [|exact Hf]. simpl. intros p [Hp Hn]. split; [lia|].
        replace (fst p - k)%nat with (S (fst p - S k)) by lia. exact Hn.
Qed.

Lemma enumerate_sorted {A : Type} (a : list A) :
  StronglySorted (fun x y => (fst x < fst y)%nat) (enumerate a).
Proof. apply (enumerate_from_facts a 0). Qed.

Lemma enumerate_lookup {A : Type} (a : list A) :
  Forall (fun p => nth_error a (fst p) = Some (snd p)) (enumerate a).
Proof.
  eapply Forall_impl; [|apply (enumerate_from_facts a 0)].
  simpl. intros p [_ H]. now rewrite Nat.sub_0_r in H.
Qed.

Lemma enumerate_length {A : Type} (a : list A) :
  List.length (enumerate a) = List.length a.
Proof. unfold enumerate. rewrite length_combine, length_seq. apply Nat.min_id. Qed.

(** ** The ranked indices *)

(** The (index, key) pairs behind [argsort(keys)[::-1][:top_k]]. *)
Lemma top_indices_pairs {A : Type} (leb : A -> A -> bool) (keys : list A) (top_k : Z) :
  (forall x y, leb x y = true \/ leb y x = true) ->
  (forall x y z, leb x y = true -> leb y z = true -> leb x z = true) ->
  exists ps : list (nat * A),
    Py.slice_to top_k (rev (argsort leb keys)) = map fst ps /\
    Forall (fun p => nth_error keys (fst p) = Some (snd p)) ps /\
    StronglySorted (fun x y => key_before leb y x) ps /\
    (0 <= top_k -> List.length ps = Nat.min (Z.to_nat top_k) (List.length keys)).
Proof.
  intros Htot Htrans.
  exists (Py.slice_to top_k (rev (sort_keys leb (enumerate keys)))).
  repeat split.
  - unfold argsort. now rewrite <- map_rev, slice_to_map.
  - destruct (slice_to_firstn top_k (rev (sort_keys leb (enumerate keys)))) as [n ->].
    apply firstn_Forall, Forall_rev.
    rewrite Forall_forall. intros p Hp.
    apply (Permutation_in _ (sort_keys_perm leb (enumerate keys))) in Hp.
    revert p Hp. apply Forall_forall, enumerate_lookup.
  - destruct (slice_to_firstn top_k (rev (sort_keys leb (enumerate keys)))) as [n ->].
    apply firstn_StronglySorted, StronglySorted_rev.
    apply sort_keys_sorted; auto using enumerate_sorted.
  - intros Hk. rewrite slice_to_length, length_rev by assumption.
    now rewrite (Permutation_length (sort_keys_perm leb (enumerate keys))),
      enumerate_length.
Qed.

Lemma set_relevance_id (res : list Ranked) :
  set_relevance (map (fun r => (label r, row r)) res) (map Relevance_Score res)
  = Ok res.
Proof.
  induction res as [|[i r v] res IH]; simpl; [reflexivity|].
  simpl in IH. now rewrite IH.
Qed.

(** Looking up the rows and scoring them, for keys computed row by row. *)
Lemma rank_result {A : Type} (cat : list Row) (f : Row -> A) (score : A -> Q)
    (ps : list (nat * A)) :
  Forall (fun p => nth_error (map f cat) (fst p) = Some (snd p)) ps ->
  exists res : list Ranked,
    iloc cat (map fst ps) = Ok (map (fun r => (label r, row r)) res) /\
    mapM (fun i => s <- Py.getitem (map f cat) i ;; Ok (score s)) (map fst ps)
      = Ok (map Relevance_Score res) /\
    Forall2 (fun p r => label r = fst p /\ nth_error cat (label r) = Some (row r) /\
                        snd p = f (row r) /\ Relevance_Score r = score (f (row r)))
            ps res.
Proof.
  induction 1 as [|[i v] ps Hp _ IH]; simpl in *.
  - exists []. repeat split; constructor.
  - destruct IH as (res & Hi & Hm & HF).
    rewrite nth_error_map in Hp.
    destruct (nth_error cat i) as [r|] eqn:Hr; [|discriminate].
    injection Hp as <-.
    exists ({| label := i; row := r; Relevance_Score := score (f r) |} :: res).
    unfold iloc in *. simpl. unfold Py.getitem at 1. rewrite Hr. simpl.
    rewrite Hi. simpl. split; [reflexivity|]. split.
    + unfold Py.getitem at 1. rewrite nth_error_map, Hr. simpl.
      now rewrite Hm.
    + constructor; [|assumption]. simpl. auto.
Qed.

(** ** The two ranking strategies *)

Lemma Zleb_total (x y : Z) : (x <=? y) = true \/ (y <=? x) = true.
Proof. rewrite !Z.leb_le. lia. Qed.

Lemma Zleb_trans (x y z : Z) :
  (x <=? y) = true -> (y <=? z) = true -> (x <=? z) = true.
Proof. rewrite !Z.leb_le. lia. Qed.

Lemma Qle_bool_total (x y : Q) : Qle_bool x y = true \/ Qle_bool y x = true.
Proof.
  rewrite !Qle_bool_iff. destruct (Qlt_le_dec x y); auto using Qlt_le_weak.
Qed.

Lemma Qle_bool_trans (x y z : Q) :
  Qle_bool x y = true -> Qle_bool y z = true -> Qle_bool x z = true.
Proof. rewrite !Qle_bool_iff. apply Qle_trans. Qed.

Lemma py_max_fold (l : list Z) :
  l <> [] -> Forall (fun s => 0 <= s) l -> Py.max l = Ok (fold_right Z.max 0 l).
Proof.
  destruct l as [|x l]; [congruence|]. intros _ H. simpl. f_equal.
  inversion H as [|? ? Hx Hl]; subst. clear H.
  revert x Hx. induction Hl as [|a l Ha Hl IH]; intros x Hx; simpl.
  - lia.
  - rewrite IH by lia. lia.
Qed.

Lemma fold_max_upper (l : list Z) :
  Forall (fun s => s <= fold_right Z.max 0 l) l.
Proof.
  induction l as [|a l IH]; simpl; constructor; [lia|].
  eapply Forall_impl; [|exact IH]. simpl. lia.
Qed.

Lemma keyword_raw_nonneg (query : string) (r : Row) : 0 <= keyword_raw query r.
Proof. unfold keyword_raw, term_count. lia. Qed.

Lemma keyword_raw_le_max (cat : list Row) (query : string) (r : Row) :
  In r cat -> keyword_raw query r <= keyword_max cat query.
Proof.
  intros H. unfold keyword_max.
  pose proof (fold_max_upper (map (keyword_raw query) cat)) as Hf.
  rewrite Forall_forall in Hf. apply Hf. now apply in_map.
Qed.

Lemma keyword_search_empty (self : Engine) (query : string) (top_k : Z) :
  catalog self = [] ->
  _keyword_search self query top_k
  = Raise (ValueError "max() arg is an empty sequence").
Proof.
  intros E. unfold _keyword_search. rewrite E. simpl.
  unfold Py.slice_to. destruct (0 <=? top_k); simpl; [|reflexivity].
  now destruct (Z.to_nat top_k).
Qed.

Lemma keyword_search_ok (self : Engine) (query : string) (top_k : Z) :
  catalog self <> [] ->
  exists res : list Ranked,
    _keyword_search self query top_k = Ok res /\
    from_catalog (catalog self) res /\
    Forall (fun r => Relevance_Score r = keyword_relevance (catalog self) query (row r)) res /\
    ranked_by (fun r => inject_Z (keyword_raw query r)) res /\
    (0 <= top_k ->
     List.length res = Nat.min (Z.to_nat top_k) (List.length (catalog self))).
Proof.
  intros Hne. unfold _keyword_search.
  change (map _ (catalog self)) with (map (keyword_raw query) (catalog self)).
  destruct (top_indices_pairs Z.leb (map (keyword_raw query) (catalog self)) top_k
              Zleb_total Zleb_trans) as (ps & -> & Hlook & Hsort & Hlen).
  destruct (rank_result (catalog self) (keyword_raw query)
              (fun s => Py.round1 (inject_Z s / inject_Z (keyword_divisor (catalog self) query) * 100))
              ps Hlook) as (res & -> & Hm & HF).
  exists res. cbn [bind].
  rewrite py_max_fold.
  2:{ destruct (catalog self); [congruence | discriminate]. }
  2:{ apply Forall_forall. intros s Hs. apply in_map_iff in Hs.
      destruct Hs as (r & <- & _). apply keyword_raw_nonneg. }
  cbn [bind]. fold (keyword_max (catalog self) query).
  fold (keyword_divisor (catalog self) query).
  rewrite Hm. cbn [bind]. split; [apply set_relevance_id|].
  repeat split.
  - clear -HF. induction HF; constructor; intuition.
  - clear -HF. induction HF; constructor; intuition.
  - unfold ranked_by. eapply StronglySorted_Forall2; [|exact HF|exact Hsort].
    intros a a' b b' (Hl & _ & Hs & _) (Hl' & _ & Hs' & _) [H1 H2].
    rewrite Hs, Hs', Z.leb_le in *. rewrite <- !Zle_Qle. split; [assumption|].
    intros H. rewrite Hl, Hl'. apply H2. assumption.
  - intros Hk. rewrite <- (Forall2_length HF), Hlen, length_map by assumption.
    reflexivity.
Qed.

Lemma semantic_search_fallback (self : Engine) (query : string) (top_k : Z) :
  model self = None ->
  semantic_search self query top_k = _keyword_search self query top_k.
Proof. intros E. unfold semantic_search. now rewrite E. Qed.

Lemma semantic_search_ok (self : Engine) (cosine : string -> string -> Q)
    (query : string) (top_k : Z) :
  model self = Some cosine ->
  exists res : list Ranked,
    semantic_search self query top_k = Ok res /\
    from_catalog (catalog self) res /\
    Forall (fun r => Relevance_Score r
                     = Py.round1 (cosine (_get_combined_text (row r)) query * 100)) res /\
    ranked_by (fun r => cosine (_get_combined_text r) query) res /\
    (0 <= top_k ->
     List.length res = Nat.min (Z.to_nat top_k) (List.length (catalog self))).
Proof.
  intros Hm. unfold semantic_search. rewrite Hm.
  set (f := fun r : Row => cosine (_get_combined_text r) query).
  destruct (top_indices_pairs Qle_bool (map f (catalog self)) top_k
              Qle_bool_total Qle_bool_trans) as (ps & -> & Hlook & Hsort & Hlen).
  destruct (rank_result (catalog self) f (fun s => Py.round1 (s * 100)) ps Hlook)
    as (res & -> & -> & HF).
  exists res. cbn [bind]. split; [apply set_relevance_id|].
  repeat split.
  - clear -HF. induction HF; constructor; intuition.
  - clear -HF. induction HF; constructor; intuition.
  - unfold ranked_by. eapply StronglySorted_Forall2; [|exact HF|exact Hsort].
    intros a a' b b' (Hl & _ & Hs & _) (Hl' & _ & Hs' & _) [H1 H2].
    rewrite Hs, Hs', Qle_bool_iff in *. split; [assumption|].
    intros H. rewrite Hl, Hl'. apply H2. assumption.
  - intros Hk. rewrite <- (Forall2_length HF), Hlen, length_map by assumption.
    reflexivity.
Qed.

(** A frame ranked by a raw score has non-increasing relevance when the
    relevance is a monotone function of the raw score. *)
Lemma ranked_by_non_increasing (raw score : Row -> Q) (res : list Ranked) :
  (forall r r', (raw r <= raw r')%Q -> (score r <= score r')%Q) ->
  Forall (fun r => Relevance_Score r = score (row r)) res ->
  ranked_by raw res -> non_increasing res.
Proof.
  intros Hmono Hsc. unfold ranked_by, non_increasing.
  apply StronglySorted_impl. intros a b Ha Hb [H _].
  rewrite Forall_forall in Hsc. rewrite (Hsc a Ha), (Hsc b Hb). now apply Hmono.
Qed.

Lemma keyword_divisor_pos (cat : list Row) (query : string) :
  0 < keyword_divisor cat query.
Proof.
  unfold keyword_divisor. destruct (Z.ltb_spec 0 (keyword_max cat query)); lia.
Qed.

Lemma keyword_relevance_mono (cat : list Row) (query : string) (r r' : Row) :
  (inject_Z (keyword_raw query r) <= inject_Z (keyword_raw query r'))%Q ->
  (keyword_relevance cat query r <= keyword_relevance cat query r')%Q.
Proof.
  intros H. unfold keyword_relevance. apply round1_mono.
  apply Qmult_le_compat_r; [|discriminate].
  unfold Qdiv. apply Qmult_le_compat_r; [assumption|].
  apply Qinv_le_0_compat. change 0%Q with (inject_Z 0). rewrite <- Zle_Qle.
  pose proof (keyword_divisor_pos cat query). lia.
Qed.

Lemma keyword_relevance_range (cat : list Row) (query : string) (r : Row) :
  In r cat -> (0 <= keyword_relevance cat query r <= 100)%Q.
Proof.
  intros Hin. unfold keyword_relevance.
  apply (round1_between 0 100).
  pose proof (keyword_divisor_pos cat query) as Hpos.
  pose proof (keyword_raw_nonneg query r) as H0.
  assert (Hle : keyword_raw query r <= keyword_divisor cat query).
  { pose proof (keyword_raw_le_max cat query r Hin). unfold keyword_divisor.
    destruct (Z.ltb_spec 0 (keyword_max cat query)); lia. }
  assert (Hd : (0 < inject_Z (keyword_divisor cat query))%Q).
  { change 0%Q with (inject_Z 0). now rewrite <- Zlt_Qlt. }
  assert (H1 : (0 <= inject_Z (keyword_raw query r) / inject_Z (keyword_divisor cat query))%Q).
  { apply Qle_shift_div_l; [assumption|]. rewrite Qmult_0_l.
    change 0%Q with (inject_Z 0). now rewrite <- Zle_Qle. }
  assert (H2 : (inject_Z (keyword_raw query r) / inject_Z (keyword_divisor cat query) <= 1)%Q).
  { apply Qle_shift_div_r; [assumption|]. rewrite Qmult_1_l. now rewrite <- Zle_Qle. }
  change (inject_Z 0) with 0%Q. change (inject_Z 100) with 100%Q. lra.
Qed.

(** ** Order of the results *)

Lemma keyword_search_cases (self : Engine) (query : string) (top_k : Z) (P : list Ranked -> Prop) :
  (forall res,
      from_catalog (catalog self) res ->
      Forall (fun r => Relevance_Score r = keyword_relevance (catalog self) query (row r)) res ->
      ranked_by (fun r => inject_Z (keyword_raw query r)) res ->
      P res) ->
  match _keyword_search self query top_k with
  | Ok res => P res
  | Raise _ => catalog self = []
  end.
Proof.
  intros HP. destruct (catalog self) as [|r0 cat] eqn:E.
  - now rewrite keyword_search_empty.
  - destruct (keyword_search_ok self query top_k) as (res & -> & H1 & H2 & H3 & _).
    { rewrite E. discriminate. }
    rewrite E in H1, H2. now apply HP.
Qed.

Lemma keyword_search_non_increasing (self : Engine) (query : string) (top_k : Z) :
  match _keyword_search self query top_k with
  | Ok res => non_increasing res
  | Raise _ => catalog self = []
  end.
Proof.
  apply keyword_search_cases. intros res _ Hsc Hrk.
  eapply ranked_by_non_increasing; [|exact Hsc|exact Hrk].
  intros r r'. apply keyword_relevance_mono.
Qed.

Lemma semantic_scores_non_increasing (cosine : string -> string -> Q) (query : string)
    (res : list Ranked) :
  Forall (fun r => Relevance_Score r
                   = Py.round1 (cosine (_get_combined_text (row r)) query * 100)) res ->
  ranked_by (fun r => cosine (_get_combined_text r) query) res ->
  non_increasing res.
Proof.
  intros Hsc Hrk.
  apply (ranked_by_non_increasing
           (fun r => cosine (_get_combined_text r) query)
           (fun r => Py.round1 (cosine (_get_combined_text r) query * 100)));
    [|assumption|assumption].
  intros r r' H. apply round1_mono. lra.
Qed.

(** C1: in the result list of the ranking operation, whichever strategy
    serves it, the relevance scores never increase from one result to the
    next.  The operation returns such a list for every query and every
    count as soon as the catalog has a record. *)
Theorem relevance_scores_non_increasing (self : Engine) (query : string) (top_k : Z) :
  match semantic_search self query top_k with
  | Ok res => non_increasing res
  | Raise _ => catalog self = []
  end /\
  match _keyword_search self query top_k with
  | Ok res => non_increasing res
  | Raise _ => catalog self = []
  end.
Proof.
  split; [|apply keyword_search_non_increasing].
  destruct (model self) as [cosine|] eqn:Hm.
  - destruct (semantic_search_ok self cosine query top_k Hm)
      as (res & -> & _ & Hsc & Hrk & _).
    eapply semantic_scores_non_increasing; eassumption.
  - rewrite semantic_search_fallback by assumption.
    apply keyword_search_non_increasing.
Qed.

(** ** Range of the relevance scores *)

Lemma semantic_score_bounds (c : Q) :
  ((-1 <= c <= 1)%Q -> (-100 <= Py.round1 (c * 100) <= 100)%Q) /\
  ((0 <= c <= 1)%Q -> (0 <= Py.round1 (c * 100) <= 100)%Q) /\
  ((c <= - (1 # 1000))%Q -> (Py.round1 (c * 100) < 0)%Q).
Proof.
  split; [|split]; intros H.
  - apply (round1_between (-100) 100). unfold inject_Z. lra.
  - apply (round1_between 0 100). unfold inject_Z. lra.
  - apply Qle_lt_trans with (Py.round1 (- (1 # 10))).
    + apply round1_mono. lra.
    + reflexivity.
Qed.

(** C2, the claim as stated fails: with an encoder that puts the only row
    at cosine -1/2 of the query, the vector strategy returns the relevance
    score -50, which is outside [0, 100]. *)
Lemma relevance_range_counterexample :
  ~ (forall (self : Engine) (query : string) (top_k : Z) (res : list Ranked),
        semantic_search self query top_k = Ok res ->
        Forall (fun r => (0 <= Relevance_Score r <= 100)%Q) res).
Proof.
  intros H.
  specialize (H (opposed_engine [python_row]) "python" 10 _ eq_refl).
  inversion H as [|r l [H0 _] _]; subst.
  vm_compute in H0. now apply H0.
Qed.

(** C2, amended: every relevance score of the keyword strategy lies in
    [0, 100]; the score of the vector strategy is the cosine scaled by 100
    and rounded to one decimal, with no clamping, so it lies in [-100, 100]
    for a cosine in [-1, 1], in [0, 100] for a cosine in [0, 1], and is
    negative for a cosine of -0.001 or less. *)
Theorem relevance_range_by_strategy (self : Engine) (query : string) (top_k : Z) :
  match _keyword_search self query top_k with
  | Ok res => Forall (fun r => (0 <= Relevance_Score r <= 100)%Q) res
  | Raise _ => catalog self = []
  end /\
  match model self with
  | Some cosine =>
      match semantic_search self query top_k with
      | Ok res =>
          Forall (fun r =>
                    let c := cosine (_get_combined_text (row r)) query in
                    Relevance_Score r = Py.round1 (c * 100) /\
                    ((-1 <= c <= 1)%Q -> (-100 <= Relevance_Score r <= 100)%Q) /\
                    ((0 <= c <= 1)%Q -> (0 <= Relevance_Score r <= 100)%Q) /\
                    ((c <= - (1 # 1000))%Q -> (Relevance_Score r < 0)%Q))
                 res
      | Raise _ => False
      end
  | None => semantic_search self query top_k = _keyword_search self query top_k
  end.
Proof.
  split.
  - apply keyword_search_cases. intros res Hcat Hsc _.
    unfold from_catalog in Hcat. rewrite Forall_forall in *.
    intros r Hr. rewrite (Hsc r Hr).
    apply keyword_relevance_range. eapply nth_error_In, Hcat, Hr.
  - destruct (model self) as [cosine|] eqn:Hm.
    + destruct (semantic_search_ok self cosine query top_k Hm)
        as (res & -> & _ & Hsc & _).
      eapply Forall_impl; [|exact Hsc]. cbv zeta. intros r ->.
      split; [reflexivity|]. apply semantic_score_bounds.
    + now apply semantic_search_fallback.
Qed.

(** ** Number of results *)

(** For a catalog with at least one record and a count [top_k >= 0] the
    ranking operation returns [min top_k N] results. *)
Lemma ranking_length (self : Engine) (query : string) (top_k : Z) :
  catalog self <> [] -> 0 <= top_k ->
  exists res : list Ranked,
    semantic_search self query top_k = Ok res /\
    List.length res = Nat.min (Z.to_nat top_k) (List.length (catalog self)).
Proof.
  intros Hne Hk. destruct (model self) as [cosine|] eqn:Hm.
  - destruct (semantic_search_ok self cosine query top_k Hm)
      as (res & Hres & _ & _ & _ & Hlen).
    exists res. auto.
  - rewrite semantic_search_fallback by assumption.
    destruct (keyword_search_ok self query top_k Hne)
      as (res & Hres & _ & _ & _ & Hlen).
    exists res. auto.
Qed.

(** C3, the failing input: on a catalog without records the keyword
    strategy, called directly or as the fallback of [semantic_search],
    raises [ValueError] from [max(scores)] instead of returning
    [min top_k 0 = 0] results. *)
Theorem ranking_raises_on_empty_catalog (query : string) (top_k : Z) :
  semantic_search (keyword_engine []) query top_k
    = Raise (ValueError "max() arg is an empty sequence") /\
  _keyword_search (keyword_engine []) query top_k
    = Raise (ValueError "max() arg is an empty sequence").
Proof.
  split; [rewrite semantic_search_fallback by reflexivity|];
    now apply keyword_search_empty.
Qed.

(** ** Ties *)

(** C4, the claim as stated fails: two rows that both contain the query
    term get the same score, and the second row of the catalog comes out
    first. *)
Lemma ties_counterexample :
  ~ (forall (self : Engine) (query : string) (top_k : Z) (res : list Ranked),
        semantic_search self query top_k = Ok res ->
        non_increasing res /\ ties_in_catalog_order res).
Proof.
  intros H.
  destruct (H (keyword_engine [python_row; java_row]) "python" 10 _ eq_refl)
    as [_ Ht].
  specialize (Ht 0%nat 1%nat _ _ (Nat.lt_0_1) eq_refl eq_refl).
  simpl in Ht. assert (1 < 0)%nat by (apply Ht; reflexivity). lia.
Qed.

Lemma ranked_by_descending (raw : Row -> Q) (res : list Ranked) :
  ranked_by raw res -> descending_by raw res.
Proof.
  unfold ranked_by, descending_by. apply StronglySorted_impl.
  intros a b _ _ [H _]. exact H.
Qed.

(** C4, amended: in both strategies the results are in descending order
    of the raw score (cosine, or number of matched terms) and of the
    relevance score.  Nothing holds of the order of rows with equal scores:
    it is the reverse of the order the index sort leaves them in, and that
    sort promises none. *)
Theorem ranking_descending_order (self : Engine) (query : string) (top_k : Z) :
  match semantic_search self query top_k with
  | Ok res =>
      non_increasing res /\
      match model self with
      | Some cosine =>
          descending_by (fun r => cosine (_get_combined_text r) query) res
      | None => descending_by (fun r => inject_Z (keyword_raw query r)) res
      end
  | Raise _ => catalog self = []
  end /\
  match _keyword_search self query top_k with
  | Ok res =>
      non_increasing res /\
      descending_by (fun r => inject_Z (keyword_raw query r)) res
  | Raise _ => catalog self = []
  end.
Proof.
  assert (Hk : match _keyword_search self query top_k with
               | Ok res =>
                   non_increasing res /\
                   descending_by (fun r => inject_Z (keyword_raw query r)) res
               | Raise _ => catalog self = []
               end).
  { apply keyword_search_cases. intros res _ Hsc Hrk.
    split; [|now apply ranked_by_descending].
    eapply ranked_by_non_increasing; [|exact Hsc|exact Hrk].
    intros r r'. apply keyword_relevance_mono. }
  split; [|exact Hk].
  destruct (model self) as [cosine|] eqn:Hm.
  - destruct (semantic_search_ok self cosine query top_k Hm)
      as (res & -> & _ & Hsc & Hrk & _).
    split; [|now apply ranked_by_descending].
    eapply semantic_scores_non_increasing; eassumption.
  - rewrite semantic_search_fallback by assumption. exact Hk.
Qed.

(** ** Empty catalog *)

Lemma apply_filters_nil (max_duration : option Z) (types : option (list string))
    (remote_only : bool) :
  apply_filters [] max_duration types remote_only = [].
Proof.
  unfold apply_filters.
  destruct max_duration as [d|]; [destruct (truthy_int (Some d))|];
    (destruct types as [[|t ts]|]; simpl; destruct remote_only; reflexivity).
Qed.

Lemma slice_to_nil {A : Type} (k : Z) : Py.slice_to k (@nil A) = [].
Proof. unfold Py.slice_to. destruct (0 <=? k); apply firstn_nil. Qed.

(** C5, the failing input: with an empty catalog and no encoder, a
    request that carries the query "python" raises [ValueError] (from
    [max(scores)] in [_keyword_search]) instead of answering with an empty
    list; the branch without query answers the empty list on the same
    catalog. *)
Theorem empty_catalog_query_raises
    (requests_get soup_get_text : string -> result string)
    (max_duration : option Z) (types : option (list string))
    (remote_only : bool) (top_k : Z) :
  get_recommendations requests_get soup_get_text (keyword_engine [])
    (Some "python") None max_duration types remote_only top_k
    = Raise (ValueError "max() arg is an empty sequence") /\
  get_recommendations requests_get soup_get_text (keyword_engine [])
    None None max_duration types remote_only top_k
    = Ok {| recommendations := []; job_requirements := None;
            search_query := None; total_found := 0 |}.
Proof.
  split.
  - unfold get_recommendations, resolve_query, candidates.
    rewrite semantic_search_fallback by reflexivity.
    now rewrite keyword_search_empty.
  - unfold get_recommendations, resolve_query, candidates.
    cbn [catalog keyword_engine enumerate List.length seq combine].
    rewrite slice_to_nil. cbn [List.length repeat set_relevance bind].
    now rewrite apply_filters_nil, slice_to_nil.
Qed.

(** ** The keyword strategy, score by score *)

(** On a catalog with at least one record the keyword strategy returns,
    for each result, the count of the query's terms found in the row's
    text, divided by the largest count of the catalog (by 1 when that is
    0), times 100, rounded to one decimal; the value lies in [0, 100]. *)
Lemma keyword_search_scores (self : Engine) (query : string) (top_k : Z) :
  match _keyword_search self query top_k with
  | Ok res =>
      Forall (fun r => Relevance_Score r = keyword_relevance (catalog self) query (row r) /\
                       (0 <= Relevance_Score r <= 100)%Q) res
  | Raise _ => catalog self = []
  end.
Proof.
  apply keyword_search_cases. intros res Hcat Hsc _.
  unfold from_catalog in Hcat. rewrite Forall_forall in *.
  intros r Hr. split; [now apply Hsc|]. rewrite (Hsc r Hr).
  apply keyword_relevance_range. eapply nth_error_In, Hcat, Hr.
Qed.

(** A query without terms scores every returned row 0. *)
Lemma keyword_search_no_terms (self : Engine) (query : string) (top_k : Z) :
  Py.split (Py.lower query) = [] ->
  match _keyword_search self query top_k with
  | Ok res => Forall (fun r => (Relevance_Score r == 0)%Q) res
  | Raise _ => catalog self = []
  end.
Proof.
  intros Hq. apply keyword_search_cases. intros res _ Hsc _.
  eapply Forall_impl; [|exact Hsc]. simpl. intros r ->.
  unfold keyword_relevance, keyword_raw. rewrite Hq.
  unfold term_count. simpl List.length. unfold Py.round1.
  rewrite (round_half_even_eq _ (inject_Z 0)).
  - rewrite round_half_even_Z. reflexivity.
  - simpl inject_Z. unfold Qdiv. rewrite !Qmult_0_l. reflexivity.
Qed.

(** C6, the failing input: for a query of white space only and a catalog
    without records the keyword strategy raises [ValueError] from
    [max(scores)]; it does not yield scores. *)
Theorem keyword_search_blank_query_empty_catalog (top_k : Z) :
  Py.split (Py.lower "   ") = [] /\
  _keyword_search (keyword_engine []) "   " top_k
    = Raise (ValueError "max() arg is an empty sequence").
Proof. split; [reflexivity | now apply keyword_search_empty]. Qed.

(** ** The duration filter *)

(** C7, the claim as stated fails: with [max_duration = 0] the duration
    filter is skipped, and a 30-minute record is returned. *)
Lemma zero_max_duration_counterexample :
  ~ (forall (requests_get soup_get_text : string -> result string)
            (self : Engine) (query url : option string) (d : Z)
            (types : option (list string)) (remote_only : bool) (top_k : Z)
            (resp : Response),
        get_recommendations requests_get soup_get_text self query url
          (Some d) types remote_only top_k = Ok resp ->
        Forall (fun r => Duration (row r) <= d) (recommendations resp)).
Proof.
  intros H.
  specialize (H offline plain_text (keyword_engine [python_row]) None None 0
                None false 10 _ eq_refl).
  inversion H as [|r l Hr _]; subst. simpl in Hr. lia.
Qed.

Lemma astype_int_id (z : Z) : int64 z -> Py.astype_int z = z.
Proof.
  unfold int64, Py.astype_int. intros H.
  rewrite Z.mod_small; lia.
Qed.

(** C7, amended: [filter_by_duration] keeps exactly the rows whose
    duration, as the 64-bit integer [astype(int)] makes of it, is at most
    [max_duration], in their order, a row whose duration equals
    [max_duration] included; for a duration that fits 64 bits this is the
    duration of the cell itself.  The assembly step applies the filter
    whenever a [max_duration] other than 0 is given, and applies no
    duration filter when [max_duration] is 0, as when it is absent. *)
Theorem duration_filter_inclusive (results : list Ranked) (d : Z)
    (types : option (list string)) (remote_only : bool) :
  filter_by_duration results d
    = filter (fun r => Py.astype_int (Duration (row r)) <=? d) results /\
  (forall r, In r (filter_by_duration results d)
             <-> In r results /\ Py.astype_int (Duration (row r)) <= d) /\
  (forall r, int64 (Duration (row r)) ->
             (In r (filter_by_duration results d)
              <-> In r results /\ Duration (row r) <= d)) /\
  apply_filters results (Some d) types remote_only
    = apply_filters (if d =? 0 then results else filter_by_duration results d)
                    None types remote_only /\
  apply_filters results (Some 0) types remote_only
    = apply_filters results None types remote_only.
Proof.
  assert (Hin : forall r, In r (filter_by_duration results d)
                          <-> In r results /\ Py.astype_int (Duration (row r)) <= d).
  { intros r. unfold filter_by_duration. rewrite filter_In, Z.leb_le. tauto. }
  split; [reflexivity|]. split; [exact Hin|]. split; [|split].
  - intros r Hr. rewrite Hin, (astype_int_id _ Hr). tauto.
  - unfold apply_filters, truthy_int. now destruct (d =? 0).
  - reflexivity.
Qed.

(** ** The heuristic requirement extractor *)

Lemma extract_job_requirements_heuristic (self : Engine) (text : string) :
  enhancement_unavailable self text ->
  extract_job_requirements self text = heuristic_requirements text.
Proof.
  unfold enhancement_unavailable, extract_job_requirements.
  destruct (gemini_client self) as [generate|]; [|reflexivity].
  now intros ->.
Qed.

(** C8: when there is no Gemini client, or its call fails, the extractor
    applied to "I need a Python test" returns skills that include "python"
    (the capital P is matched); and for every text it then returns the
    experience level "mid", the test types Coding and Cognitive, and the
    duration preference "medium". *)
Theorem heuristic_extraction (self : Engine) (text : string) :
  enhancement_unavailable self text ->
  experience_level (extract_job_requirements self text) = "mid" /\
  test_types (extract_job_requirements self text) = ["Coding"; "Cognitive"] /\
  duration_preference (extract_job_requirements self text) = "medium" /\
  (text = "I need a Python test" ->
   In "python" (skills (extract_job_requirements self text))).
Proof.
  intros H. rewrite (extract_job_requirements_heuristic self text H).
  repeat split. intros ->. vm_compute. auto.
Qed.

Lemma heuristic_extraction_witness :
  experience_level
    (extract_job_requirements (keyword_engine []) "I need a Python test") = "mid" /\
  test_types
    (extract_job_requirements (keyword_engine []) "I need a Python test")
    = ["Coding"; "Cognitive"] /\
  duration_preference
    (extract_job_requirements (keyword_engine []) "I need a Python test") = "medium" /\
  In "python"
     (skills (extract_job_requirements (keyword_engine []) "I need a Python test")).
Proof.
  destruct (heuristic_extraction (keyword_engine []) "I need a Python test" I)
    as (H1 & H2 & H3 & H4).
  split; [exact H1 | split; [exact H2 | split; [exact H3 | exact (H4 eq_refl)]]].
Defined.

(** ** Requests without search query *)

Lemma set_relevance_repeat (rows : list (nat * Row)) :
  set_relevance rows (repeat 100%Q (List.length rows))
  = Ok (map (fun p => {| label := fst p; row := snd p; Relevance_Score := 100 |}) rows).
Proof.
  induction rows as [|[i r] rows IH]; simpl; [reflexivity|].
  now rewrite IH.
Qed.

Lemma candidates_default (self : Engine) (search_query : option string) (top_k : Z) :
  truthy_str search_query = false ->
  candidates self search_query top_k = Ok (default_candidates (catalog self) top_k).
Proof.
  intros H. unfold candidates, default_candidates.
  destruct search_query as [[|c q]|]; try discriminate; apply set_relevance_repeat.
Qed.

Lemma map_snd_enumerate_from {A : Type} (a : list A) (k : nat) :
  map snd (combine (seq k (List.length a)) a) = a.
Proof.
  revert k. induction a as [|x a IH]; intros k; simpl; [reflexivity|].
  now rewrite IH.
Qed.

Lemma default_candidates_rows (cat : list Row) (top_k : Z) :
  map row (default_candidates cat top_k) = Py.slice_to top_k cat.
Proof.
  unfold default_candidates. rewrite map_map. simpl.
  rewrite <- slice_to_map. unfold enumerate. now rewrite map_snd_enumerate_from.
Qed.

Lemma default_candidates_facts (cat : list Row) (top_k : Z) :
  Forall (fun r => Relevance_Score r = 100%Q /\
                   nth_error cat (label r) = Some (row r))
         (default_candidates cat top_k).
Proof.
  unfold default_candidates. apply Forall_map. simpl.
  destruct (slice_to_firstn top_k (enumerate cat)) as [n ->].
  apply firstn_Forall.
  eapply Forall_impl; [|apply enumerate_lookup]. simpl. auto.
Qed.

Lemma firstn_min_length {A : Type} (n : nat) (l : list A) :
  firstn (Nat.min n (List.length l)) l = firstn n l.
Proof.
  destruct (Nat.le_ge_cases n (List.length l)) as [H|H].
  - now rewrite Nat.min_l.
  - rewrite Nat.min_r by assumption. now rewrite firstn_all, firstn_all2.
Qed.

Lemma slice_to_idem {A : Type} (k : Z) (l : list A) :
  0 <= k -> Py.slice_to k (Py.slice_to k l) = Py.slice_to k l.
Proof.
  intros Hk. unfold Py.slice_to. destruct (Z.leb_spec 0 k); [|lia].
  now rewrite firstn_firstn, Nat.min_id.
Qed.

Lemma apply_filters_none (results : list Ranked) (max_duration : option Z)
    (types : option (list string)) :
  truthy_int max_duration = false -> truthy_list types = false ->
  apply_filters results max_duration types false = results.
Proof.
  intros Hd Ht. unfold apply_filters.
  destruct max_duration as [d|]; [rewrite Hd|];
    (destruct types as [t|]; [rewrite Ht|]; reflexivity).
Qed.

(** C9, the claim as stated fails: without query and without URL, a
    request with [max_duration = 30] on a catalog whose only record lasts 60
    minutes returns no record, not the first [min top_k N = 1] record. *)
Lemma no_query_counterexample :
  ~ (forall (requests_get soup_get_text : string -> result string)
            (self : Engine) (query url : option string)
            (max_duration : option Z) (types : option (list string))
            (remote_only : bool) (top_k : Z),
        catalog self <> [] -> 0 <= top_k ->
        truthy_str (fst (fst (resolve_query requests_get soup_get_text self
                                query url types))) = false ->
        exists resp,
          get_recommendations requests_get soup_get_text self query url
            max_duration types remote_only top_k = Ok resp /\
          map row (recommendations resp)
            = firstn (Nat.min (Z.to_nat top_k) (List.length (catalog self)))
                     (catalog self) /\
          Forall (fun r => Relevance_Score r = 100%Q) (recommendations resp)).
Proof.
  intros H.
  destruct (H offline plain_text (keyword_engine [personality_row]) None None
              (Some 30) None false 10) as (resp & Hr & Hrows & _);
    [discriminate | lia | reflexivity |].
  injection Hr as <-. discriminate Hrows.
Qed.

(** C9, amended: when [get_recommendations] ends up without search query
    it does not fail; its candidates are the head of the catalog (the first
    [min top_k N] records in catalog order for [top_k >= 0]), each at
    relevance 100.0, and it returns the first [top_k] of the candidates
    that pass the duration, test-type and remote filters of the request:
    all the candidates when no filter is set. *)
Theorem no_query_recommendations
    (requests_get soup_get_text : string -> result string)
    (self : Engine) (query url : option string) (max_duration : option Z)
    (types : option (list string)) (remote_only : bool) (top_k : Z) :
  truthy_str (fst (fst (resolve_query requests_get soup_get_text self
                          query url types))) = false ->
  exists resp : Response,
    get_recommendations requests_get soup_get_text self query url
      max_duration types remote_only top_k = Ok resp /\
    recommendations resp
      = Py.slice_to top_k
          (apply_filters (default_candidates (catalog self) top_k) max_duration
             (snd (resolve_query requests_get soup_get_text self query url types))
             remote_only) /\
    total_found resp = List.length (recommendations resp) /\
    Forall (fun r => Relevance_Score r = 100%Q /\
                     nth_error (catalog self) (label r) = Some (row r))
           (default_candidates (catalog self) top_k) /\
    (0 <= top_k ->
     map row (default_candidates (catalog self) top_k)
       = firstn (Nat.min (Z.to_nat top_k) (List.length (catalog self)))
                (catalog self)) /\
    (0 <= top_k -> truthy_int max_duration = false ->
     truthy_list (snd (resolve_query requests_get soup_get_text self query url types))
       = false ->
     remote_only = false ->
     recommendations resp = default_candidates (catalog self) top_k).
Proof.
  intros Hq. unfold get_recommendations.
  destruct (resolve_query requests_get soup_get_text self query url types)
    as [[sq jr] ty] eqn:E.
  simpl in Hq |- *. rewrite (candidates_default self sq top_k Hq). cbn [bind].
  eexists. split; [reflexivity|]. cbn [recommendations total_found].
  split; [reflexivity|]. split; [reflexivity|].
  split; [apply default_candidates_facts|]. split.
  - intros Hk. rewrite default_candidates_rows. unfold Py.slice_to.
    destruct (Z.leb_spec 0 top_k); [|lia]. now rewrite firstn_min_length.
  - intros Hk Hd Ht ->. rewrite apply_filters_none by assumption.
    unfold default_candidates. rewrite <- slice_to_map.
    rewrite slice_to_idem by assumption. now rewrite slice_to_map.
Qed.

Lemma no_query_recommendations_witness :
  exists resp : Response,
    get_recommendations offline plain_text
      (keyword_engine [python_row; personality_row; java_row])
      None None None None false 2 = Ok resp /\
    map row (recommendations resp) = [python_row; personality_row] /\
    map Relevance_Score (recommendations resp) = [100%Q; 100%Q] /\
    total_found resp = 2%nat.
Proof.
  destruct (no_query_recommendations offline plain_text
              (keyword_engine [python_row; personality_row; java_row])
              None None None None false 2 eq_refl)
    as (resp & Hr & _ & Htot & _ & _ & Hall).
  exists resp. split; [exact Hr|].
  rewrite Htot, (Hall ltac:(lia) eq_refl eq_refl eq_refl).
  repeat split.
Defined.

(** ** Fetching the text of a page *)

Lemma prefix_append (p s : string) : prefix p (p ++ s) = true.
Proof.
  induction p as [|c p IH]; simpl.
  - now destruct s.
  - destruct (ascii_dec c c); [assumption | congruence].
Qed.




(** * Further properties of the engine *)

(** ** The ranked pairs *)

Lemma firstn_NoDup {A : Type} (n : nat) (l : list A) :
  NoDup l -> NoDup (firstn n l).
Proof.
  revert l. induction n as [|n IH]; intros [|a l] H; simpl; try constructor.
  - inversion H; subst. intros Hin. apply firstn_In in Hin. contradiction.
  - apply IH. now inversion H.
Qed.

Lemma map_fst_enumerate {A : Type} (a : list A) :
  map fst (enumerate a) = seq 0 (List.length a).
Proof.
  unfold enumerate. generalize 0%nat.
  induction a as [|x a IH]; intros k; simpl; [reflexivity|]. now rewrite IH.
Qed.

Lemma top_pairs_indices {A : Type} (leb : A -> A -> bool) (keys : list A) (top_k : Z) :
  Py.slice_to top_k (rev (argsort leb keys)) = map fst (top_pairs leb keys top_k).
Proof. unfold argsort, top_pairs. now rewrite <- map_rev, slice_to_map. Qed.

Lemma top_pairs_lookup {A : Type} (leb : A -> A -> bool) (keys : list A) (top_k : Z) :
  Forall (fun p => nth_error keys (fst p) = Some (snd p)) (top_pairs leb keys top_k).
Proof.
  unfold top_pairs.
  destruct (slice_to_firstn top_k (rev (sort_keys leb (enumerate keys)))) as [n ->].
  apply firstn_Forall, Forall_rev. rewrite Forall_forall. intros p Hp.
  apply (Permutation_in _ (sort_keys_perm leb (enumerate keys))) in Hp.
  revert p Hp. apply Forall_forall, enumerate_lookup.
Qed.

Lemma top_pairs_NoDup {A : Type} (leb : A -> A -> bool) (keys : list A) (top_k : Z) :
  NoDup (map fst (top_pairs leb keys top_k)).
Proof.
  unfold top_pairs. rewrite <- slice_to_map.
  destruct (slice_to_firstn top_k (map fst (rev (sort_keys leb (enumerate keys)))))
    as [n ->].
  apply firstn_NoDup. rewrite map_rev. apply NoDup_rev.
  apply (Permutation_NoDup (l := seq 0 (List.length keys))); [|apply seq_NoDup].
  rewrite <- map_fst_enumerate. apply Permutation_map. symmetry.
  apply sort_keys_perm.
Qed.

Lemma enumerate_In {A : Type} (keys : list A) (i : nat) (key : A) :
  nth_error keys i = Some key -> In (i, key) (enumerate keys).
Proof.
  unfold enumerate. replace i with (0 + i)%nat at 2 by lia.
  generalize 0%nat as k. revert i.
  induction keys as [|x keys IH]; intros [|i] k Hi; simpl in *; try discriminate.
  - injection Hi as ->. left. f_equal. lia.
  - right. specialize (IH i (S k) Hi).
    now replace (S k + i)%nat with (k + S i)%nat in IH by lia.
Qed.

(** The first ranked pair carries a largest key. *)
Lemma top_pairs_head_max {A : Type} (leb : A -> A -> bool) (keys : list A)
    (top_k : Z) (p : nat * A) (ps : list (nat * A)) :
  (forall x y, leb x y = true \/ leb y x = true) ->
  (forall x y z, leb x y = true -> leb y z = true -> leb x z = true) ->
  top_pairs leb keys top_k = p :: ps ->
  forall key, In key keys -> leb key (snd p) = true.
Proof.
  intros Htot Htrans E key Hkey.
  assert (Hs : StronglySorted (fun x y => key_before leb y x)
                 (rev (sort_keys leb (enumerate keys)))).
  { apply StronglySorted_rev, sort_keys_sorted; auto using enumerate_sorted. }
  destruct (In_nth_error _ _ Hkey) as [i Hi].
  assert (Hin : In (i, key) (rev (sort_keys leb (enumerate keys)))).
  { apply -> in_rev.
    apply (Permutation_in _ (Permutation_sym (sort_keys_perm leb (enumerate keys)))).
    now apply enumerate_In. }
  unfold top_pairs in E.
  destruct (slice_to_firstn top_k (rev (sort_keys leb (enumerate keys)))) as [n En].
  rewrite En in E.
  destruct (rev (sort_keys leb (enumerate keys))) as [|q qs].
  { now rewrite firstn_nil in E. }
  destruct n as [|n]; [discriminate|]. simpl in E. injection E as -> _.
  destruct Hin as [Hp|Hin].
  - subst p. simpl. destruct (Htot key key); assumption.
  - inversion Hs as [|? ? _ Hf]; subst. rewrite Forall_forall in Hf.
    apply (Hf _ Hin).
Qed.

(** ** The results, pair by pair *)

Lemma keyword_search_pairs (self : Engine) (query : string) (top_k : Z) :
  catalog self <> [] ->
  exists res : list Ranked,
    _keyword_search self query top_k = Ok res /\
    Forall2 (fun p r => label r = fst p /\
                        nth_error (catalog self) (label r) = Some (row r) /\
                        snd p = keyword_raw query (row r) /\
                        Relevance_Score r = keyword_relevance (catalog self) query (row r))
            (top_pairs Z.leb (map (keyword_raw query) (catalog self)) top_k) res.
Proof.
  intros Hne. unfold _keyword_search.
  change (map _ (catalog self)) with (map (keyword_raw query) (catalog self)).
  rewrite top_pairs_indices.
  destruct (rank_result (catalog self) (keyword_raw query)
              (fun s => Py.round1 (inject_Z s / inject_Z (keyword_divisor (catalog self) query) * 100))
              _ (top_pairs_lookup Z.leb (map (keyword_raw query) (catalog self)) top_k))
    as (res & -> & Hm & HF).
  exists res. cbn [bind]. rewrite py_max_fold.
  2:{ destruct (catalog self); [congruence | discriminate]. }
  2:{ apply Forall_forall. intros s Hs. apply in_map_iff in Hs.
      destruct Hs as (r & <- & _). apply keyword_raw_nonneg. }
  cbn [bind]. fold (keyword_max (catalog self) query).
  fold (keyword_divisor (catalog self) query).
  rewrite Hm. cbn [bind]. split; [apply set_relevance_id | exact HF].
Qed.

Lemma semantic_search_pairs (self : Engine) (cosine : string -> string -> Q)
    (query : string) (top_k : Z) :
  model self = Some cosine ->
  exists res : list Ranked,
    semantic_search self query top_k = Ok res /\
    Forall2 (fun p r => label r = fst p /\
                        nth_error (catalog self) (label r) = Some (row r) /\
                        snd p = cosine (_get_combined_text (row r)) query /\
                        Relevance_Score r
                        = Py.round1 (cosine (_get_combined_text (row r)) query * 100))
            (top_pairs Qle_bool
               (map (fun r => cosine (_get_combined_text r) query) (catalog self)) top_k)
            res.
Proof.
  intros Hm. unfold semantic_search. rewrite Hm.
  set (f := fun r : Row => cosine (_get_combined_text r) query).
  rewrite top_pairs_indices.
  destruct (rank_result (catalog self) f (fun s => Py.round1 (s * 100)) _
              (top_pairs_lookup Qle_bool (map f (catalog self)) top_k))
    as (res & -> & -> & HF).
  exists res. cbn [bind]. split; [apply set_relevance_id | exact HF].
Qed.

Lemma Forall2_labels {A : Type} (T : nat * A -> Ranked -> Prop)
    (ps : list (nat * A)) (res : list Ranked) :
  (forall p r, T p r -> label r = fst p) ->
  Forall2 T ps res -> map label res = map fst ps.
Proof.
  intros H. induction 1 as [|p r ps res Hpr _ IH]; simpl; [reflexivity|].
  now rewrite IH, (H p r Hpr).
Qed.

(** What every result list of the ranking operation satisfies. *)
Lemma semantic_search_sound (self : Engine) (query : string) (top_k : Z)
    (res : list Ranked) :
  semantic_search self query top_k = Ok res ->
  from_catalog (catalog self) res /\ NoDup (map label res) /\ non_increasing res /\
  (0 <= top_k -> (List.length res <= Z.to_nat top_k)%nat).
Proof.
  intros Hres. destruct (model self) as [cosine|] eqn:Hm.
  - destruct (semantic_search_pairs self cosine query top_k Hm) as (res' & E & HF).
    rewrite E in Hres. injection Hres as <-.
    destruct (semantic_search_ok self cosine query top_k Hm)
      as (res'' & E' & Hcat & Hsc & Hrk & _).
    rewrite E in E'. injection E' as <-.
    split; [assumption|]. split.
    + erewrite Forall2_labels; [apply top_pairs_NoDup| |exact HF].
      intros p r (H & _). exact H.
    + split; [eapply semantic_scores_non_increasing; eassumption|].
      intros Hk. rewrite <- (Forall2_length HF). unfold top_pairs.
      rewrite slice_to_length by assumption. apply Nat.le_min_l.
  - rewrite semantic_search_fallback in Hres by assumption.
    destruct (catalog self) as [|r0 cat] eqn:Ec.
    { rewrite keyword_search_empty in Hres by assumption. discriminate. }
    assert (Hne : catalog self <> []) by (rewrite Ec; discriminate).
    destruct (keyword_search_pairs self query top_k Hne) as (res' & E & HF).
    rewrite E in Hres. injection Hres as <-.
    destruct (keyword_search_ok self query top_k Hne)
      as (res'' & E' & Hcat & Hsc & Hrk & _).
    rewrite E in E'. injection E' as <-. rewrite Ec in *.
    split; [assumption|]. split.
    + erewrite Forall2_labels; [apply top_pairs_NoDup| |exact HF].
      intros p r (H & _). exact H.
    + split.
      * eapply ranked_by_non_increasing; [|exact Hsc|exact Hrk].
        intros r r'. apply keyword_relevance_mono.
      * intros Hk. rewrite <- (Forall2_length HF). unfold top_pairs.
        rewrite slice_to_length by assumption. apply Nat.le_min_l.
Qed.

(** ** Filters *)

Lemma filter_and {A : Type} (p q : A -> bool) (l : list A) :
  filter q (filter p l) = filter (fun x => p x && q x) l.
Proof.
  induction l as [|a l IH]; simpl; [reflexivity|].
  destruct (p a); simpl; [destruct (q a)|]; now rewrite IH.
Qed.

Lemma filter_true {A : Type} (p : A -> bool) (l : list A) :
  (forall x, p x = true) -> filter p l = l.
Proof.
  intros H. induction l as [|a l IH]; simpl; [reflexivity|].
  now rewrite H, IH.
Qed.

Lemma filter_StronglySorted {A : Type} (R : A -> A -> Prop) (p : A -> bool) (l : list A) :
  StronglySorted R l -> StronglySorted R (filter p l).
Proof.
  induction 1 as [|a l Hs IH Hf]; simpl; [constructor|].
  destruct (p a); [|assumption]. constructor; [assumption|].
  rewrite Forall_forall in *. intros x Hx. apply Hf.
  now apply filter_In in Hx.
Qed.

Lemma filter_NoDup_map {Item Key : Type} (key : Item -> Key) (keep : Item -> bool)
    (rows : list Item) (Hkeys : NoDup (map key rows)) :
  NoDup (map key (filter keep rows)).
Proof.
  induction rows as [|a rows IH]; simpl in *; [constructor|].
  inversion Hkeys as [|? ? Hn Hd]; subst.
  destruct (keep a); simpl; [|now apply IH]. constructor; [|now apply IH].
  intros Hin. apply Hn. apply in_map_iff in Hin. destruct Hin as (x & Hx & Hin).
  apply in_map_iff. exists x. split; [assumption|]. now apply filter_In in Hin.
Qed.

Lemma filter_Forall {A : Type} (P : A -> Prop) (p : A -> bool) (l : list A) :
  Forall P l -> Forall P (filter p l).
Proof.
  rewrite !Forall_forall. intros H x Hx. apply H. now apply filter_In in Hx.
Qed.

Lemma filter_length_le {A : Type} (p : A -> bool) (l : list A) :
  (List.length (filter p l) <= List.length l)%nat.
Proof.
  induction l as [|a l IH]; simpl; [lia|]. destruct (p a); simpl; lia.
Qed.

Lemma apply_filters_passes (results : list Ranked) (max_duration : option Z)
    (types : option (list string)) (remote_only : bool) :
  apply_filters results max_duration types remote_only
  = filter (passes max_duration types remote_only) results.
Proof.
  unfold apply_filters, passes, truthy_int, truthy_list, filter_by_duration,
    filter_by_test_type, filter_by_remote.
  destruct max_duration as [d|]; [destruct (d =? 0)|];
    (destruct types as [[|t ts]|]);
    destruct remote_only; cbn [negb orb andb];
    rewrite ?filter_and; try (symmetry; apply filter_true; reflexivity);
    apply filter_ext; intros r; cbn [andb];
    rewrite ?andb_true_r, ?andb_assoc; reflexivity.
Qed.

(** ** The assembled response *)

Lemma slice_to_sub {A : Type} (P : list A -> Prop) (k : Z) (l : list A) :
  (forall n, P (firstn n l)) -> P (Py.slice_to k l).
Proof. intros H. destruct (slice_to_firstn k l) as [n ->]. apply H. Qed.

Lemma StronglySorted_const (res : list Ranked) (v : Q) :
  Forall (fun r => Relevance_Score r = v) res -> non_increasing res.
Proof.
  unfold non_increasing. induction 1 as [|a l Ha Hl IH]; constructor; [assumption|].
  eapply Forall_impl; [|exact Hl]. simpl. intros b ->. rewrite Ha. apply Qle_refl.
Qed.

Lemma candidates_sound (self : Engine) (search_query : option string) (top_k : Z)
    (cands : list Ranked) :
  candidates self search_query top_k = Ok cands ->
  from_catalog (catalog self) cands /\ NoDup (map label cands) /\
  non_increasing cands /\
  (0 <= top_k -> truthy_str search_query = true -> (List.length cands <= 50)%nat).
Proof.
  intros H. destruct (truthy_str search_query) eqn:Hq.
  - unfold candidates in H. destruct search_query as [[|c q]|]; try discriminate.
    destruct (semantic_search_sound _ _ _ _ H) as (H1 & H2 & H3 & H4).
    repeat (split; [assumption|]). intros Hk _.
    etransitivity; [apply H4; lia|]. lia.
  - rewrite candidates_default in H by assumption. injection H as <-.
    split; [|split; [|split]].
    + eapply Forall_impl; [|apply default_candidates_facts]. simpl. tauto.
    + unfold default_candidates. rewrite map_map. simpl.
      rewrite <- slice_to_map. apply slice_to_sub. intros n. apply firstn_NoDup.
      change (NoDup (map fst (enumerate (catalog self)))).
      rewrite map_fst_enumerate. apply seq_NoDup.
    + apply (StronglySorted_const _ 100%Q).
      eapply Forall_impl; [|apply default_candidates_facts]. simpl. tauto.
    + discriminate.
Qed.

(** The response is the first [top_k] of the candidates that pass. *)
Lemma get_recommendations_inv
    (requests_get soup_get_text : string -> result string)
    (self : Engine) (query url : option string) (max_duration : option Z)
    (types : option (list string)) (remote_only : bool) (top_k : Z)
    (resp : Response) :
  get_recommendations requests_get soup_get_text self query url max_duration
    types remote_only top_k = Ok resp ->
  exists cands : list Ranked,
    candidates self (search_query resp) top_k = Ok cands /\
    search_query resp
      = fst (fst (resolve_query requests_get soup_get_text self query url types)) /\
    job_requirements resp
      = snd (fst (resolve_query requests_get soup_get_text self query url types)) /\
    recommendations resp
      = Py.slice_to top_k
          (filter (passes max_duration
                     (snd (resolve_query requests_get soup_get_text self query url types))
                     remote_only) cands) /\
    total_found resp = List.length (recommendations resp).
Proof.
  unfold get_recommendations.
  destruct (resolve_query requests_get soup_get_text self query url types)
    as [[sq jr] ty].
  destruct (candidates self sq top_k) as [cands|e] eqn:Hc; cbn [bind]; [|discriminate].
  intros H. injection H as <-. cbn [search_query recommendations total_found
                                      job_requirements fst snd].
  exists cands. rewrite apply_filters_passes. auto.
Qed.

Lemma response_rows
    (requests_get soup_get_text : string -> result string)
    (self : Engine) (query url : option string) (max_duration : option Z)
    (types : option (list string)) (remote_only : bool) (top_k : Z)
    (resp : Response) :
  get_recommendations requests_get soup_get_text self query url max_duration
    types remote_only top_k = Ok resp ->
  from_catalog (catalog self) (recommendations resp) /\
  NoDup (map label (recommendations resp)) /\
  total_found resp = List.length (recommendations resp).
Proof.
  intros H. destruct (get_recommendations_inv _ _ _ _ _ _ _ _ _ _ H)
    as (cands & Hc & _ & _ & -> & Ht).
  destruct (candidates_sound _ _ _ _ Hc) as (H1 & H2 & _).
  split; [|split].
  - apply slice_to_sub. intros n. apply firstn_Forall, filter_Forall, H1.
  - rewrite <- slice_to_map. apply slice_to_sub. intros n.
    apply firstn_NoDup, filter_NoDup_map, H2.
  - rewrite Ht. destruct (get_recommendations_inv _ _ _ _ _ _ _ _ _ _ H)
      as (cands' & Hc' & _ & _ & -> & _). reflexivity.
Qed.

(** Every recommendation is a row of the catalog, under its own index, and
    no row is recommended twice; [total_found] counts the recommendations. *)
Theorem recommendations_from_catalog
    (requests_get soup_get_text : string -> result string)
    (self : Engine) (query url : option string) (max_duration : option Z)
    (types : option (list string)) (remote_only : bool) (top_k : Z)
    (resp : Response) :
  get_recommendations requests_get soup_get_text self query url max_duration
    types remote_only top_k = Ok resp ->
  from_catalog (catalog self) (recommendations resp) /\
  NoDup (map label (recommendations resp)) /\
  total_found resp = List.length (recommendations resp).
Proof. apply response_rows. Qed.

Lemma recommendations_from_catalog_witness :
  exists resp : Response,
    get_recommendations offline plain_text (keyword_engine sample_catalog)
      (Some "python sql") None (Some 45) None true 10 = Ok resp /\
    from_catalog sample_catalog (recommendations resp) /\
    NoDup (map label (recommendations resp)) /\
    total_found resp = List.length (recommendations resp).
Proof.
  eexists. split; [reflexivity|].
  exact (recommendations_from_catalog offline plain_text
           (keyword_engine sample_catalog) (Some "python sql") None (Some 45)
           None true 10 _ eq_refl).
Defined.

(** The relevance scores of a response never increase along the
    recommendations, with or without search query and whatever the filters. *)
Theorem recommendations_non_increasing
    (requests_get soup_get_text : string -> result string)
    (self : Engine) (query url : option string) (max_duration : option Z)
    (types : option (list string)) (remote_only : bool) (top_k : Z)
    (resp : Response) :
  get_recommendations requests_get soup_get_text self query url max_duration
    types remote_only top_k = Ok resp ->
  non_increasing (recommendations resp).
Proof.
  intros H. destruct (get_recommendations_inv _ _ _ _ _ _ _ _ _ _ H)
    as (cands & Hc & _ & _ & -> & _).
  destruct (candidates_sound _ _ _ _ Hc) as (_ & _ & H3 & _).
  apply slice_to_sub. intros n.
  apply firstn_StronglySorted, filter_StronglySorted, H3.
Qed.

Lemma recommendations_non_increasing_witness :
  exists resp : Response,
    get_recommendations offline plain_text (keyword_engine sample_catalog)
      (Some "python sql") None None None false 10 = Ok resp /\
    map Relevance_Score (recommendations resp) = [1000 # 10; 500 # 10; 0 # 10]%Q /\
    non_increasing (recommendations resp).
Proof.
  eexists. split; [reflexivity|]. split; [vm_compute; reflexivity|].
  exact (recommendations_non_increasing offline plain_text
           (keyword_engine sample_catalog) (Some "python sql") None None
           None false 10 _ eq_refl).
Defined.

Lemma from_catalog_length (cat : list Row) (res : list Ranked) :
  from_catalog cat res -> NoDup (map label res) ->
  (List.length res <= List.length cat)%nat.
Proof.
  intros Hc Hn. rewrite <- (length_map label res), <- (length_seq (List.length cat) 0).
  apply NoDup_incl_length; [assumption|].
  intros i Hi. apply in_map_iff in Hi. destruct Hi as (r & <- & Hr).
  unfold from_catalog in Hc. rewrite Forall_forall in Hc.
  apply in_seq. split; [lia|]. simpl. apply nth_error_Some.
  rewrite (Hc r Hr). discriminate.
Qed.

Lemma slice_to_length_le {A : Type} (k : Z) (l : list A) :
  (List.length (Py.slice_to k l) <= List.length l)%nat.
Proof. unfold Py.slice_to. destruct (0 <=? k); rewrite length_firstn; lia. Qed.

Lemma slice_to_length_mono {A : Type} (k : Z) (l l' : list A) :
  (List.length l <= List.length l')%nat ->
  (List.length (Py.slice_to k l) <= List.length (Py.slice_to k l'))%nat.
Proof.
  intros H. unfold Py.slice_to. destruct (0 <=? k); rewrite !length_firstn; lia.
Qed.

Lemma filter_length_mono {A : Type} (p q : A -> bool) (l : list A) :
  (forall x, p x = true -> q x = true) ->
  (List.length (filter p l) <= List.length (filter q l))%nat.
Proof.
  intros H. induction l as [|a l IH]; simpl; [lia|].
  destruct (p a) eqn:Hp; [rewrite (H a Hp); simpl; lia|].
  destruct (q a); simpl; lia.
Qed.

(** For a count [top_k >= 0] a response holds at most [top_k]
    recommendations and at most one per catalog row; when the request has a
    search query it holds at most 50, whatever [top_k] is. *)
Theorem recommendations_count
    (requests_get soup_get_text : string -> result string)
    (self : Engine) (query url : option string) (max_duration : option Z)
    (types : option (list string)) (remote_only : bool) (top_k : Z)
    (resp : Response) :
  0 <= top_k ->
  get_recommendations requests_get soup_get_text self query url max_duration
    types remote_only top_k = Ok resp ->
  (total_found resp <= Z.to_nat top_k)%nat /\
  (total_found resp <= List.length (catalog self))%nat /\
  (truthy_str (search_query resp) = true -> (total_found resp <= 50)%nat).
Proof.
  intros Hk H.
  destruct (response_rows _ _ _ _ _ _ _ _ _ _ H) as (Hcat & Hnd & Ht).
  destruct (get_recommendations_inv _ _ _ _ _ _ _ _ _ _ H)
    as (cands & Hc & _ & _ & Hr & _).
  destruct (candidates_sound _ _ _ _ Hc) as (_ & _ & _ & H50).
  rewrite Ht. split; [|split].
  - rewrite Hr, slice_to_length by assumption. apply Nat.le_min_l.
  - now apply from_catalog_length.
  - intros Hq. rewrite Hr.
    etransitivity; [apply slice_to_length_le|].
    etransitivity; [apply filter_length_le|]. now apply H50.
Qed.

Lemma recommendations_count_witness :
  exists resp : Response,
    get_recommendations offline plain_text (keyword_engine sample_catalog)
      (Some "python sql") None None None false 2 = Ok resp /\
    (total_found resp <= 2)%nat /\
    (total_found resp <= 3)%nat /\
    (total_found resp <= 50)%nat.
Proof.
  eexists. split; [reflexivity|].
  destruct (recommendations_count offline plain_text
              (keyword_engine sample_catalog) (Some "python sql") None None
              None false 2 _ ltac:(lia) eq_refl) as (H1 & H2 & H3).
  split; [exact H1|]. split; [exact H2|]. exact (H3 eq_refl).
Defined.

(** The duration, test-type and remote filters act together as one test:
    a response holds the first [top_k] of the candidates that pass every
    filter that is switched on, so each recommendation is within a non-zero
    [max_duration] (its duration taken as the 64-bit integer [astype(int)]
    makes of it, which is the duration itself when it fits 64 bits), has
    one of the test types when some are in force, and supports remote
    testing when [remote_only] is set. *)
Theorem filters_are_conjunctive
    (requests_get soup_get_text : string -> result string)
    (self : Engine) (query url : option string) (max_duration : option Z)
    (types : option (list string)) (remote_only : bool) (top_k : Z)
    (resp : Response) :
  get_recommendations requests_get soup_get_text self query url max_duration
    types remote_only top_k = Ok resp ->
  exists cands : list Ranked,
    candidates self (search_query resp) top_k = Ok cands /\
    recommendations resp
      = Py.slice_to top_k
          (filter (passes max_duration
                     (snd (resolve_query requests_get soup_get_text self query url types))
                     remote_only) cands) /\
    Forall (fun r =>
              (forall d, max_duration = Some d -> d <> 0 ->
                         Py.astype_int (Duration (row r)) <= d /\
                         (int64 (Duration (row r)) -> Duration (row r) <= d)) /\
              (forall t ts,
                  snd (resolve_query requests_get soup_get_text self query url types)
                  = Some (t :: ts) ->
                  In (Test_Type (row r)) (t :: ts)) /\
              (remote_only = true -> Remote_Testing_Support (row r) = "Yes"))
           (recommendations resp).
Proof.
  intros H. destruct (get_recommendations_inv _ _ _ _ _ _ _ _ _ _ H)
    as (cands & Hc & _ & _ & Hr & _).
  exists cands. split; [assumption|]. split; [assumption|].
  rewrite Hr. apply slice_to_sub. intros n. apply firstn_Forall.
  apply Forall_forall. intros r Hin. apply filter_In in Hin.
  destruct Hin as [_ Hp]. unfold passes in Hp.
  rewrite !andb_true_iff in Hp. destruct Hp as [[Hd Ht] Hro].
  split; [|split].
  - intros d -> Hd0. apply orb_true_iff in Hd. destruct Hd as [Hd|Hd].
    + apply Z.eqb_eq in Hd. contradiction.
    + apply Z.leb_le in Hd. split; [assumption|].
      intros H64. now rewrite <- (astype_int_id _ H64).
  - intros t ts E. rewrite E in Ht. apply existsb_exists in Ht.
    destruct Ht as (x & Hx & Hxe). apply String.eqb_eq in Hxe. now rewrite Hxe.
  - intros ->. now apply String.eqb_eq.
Qed.

Lemma filters_are_conjunctive_witness :
  exists resp : Response,
    get_recommendations offline plain_text (keyword_engine sample_catalog)
      (Some "coding") None (Some 40) (Some ["Coding"]) true 10 = Ok resp /\
    map row (recommendations resp) = [python_row] /\
    Forall (fun r => Py.astype_int (Duration (row r)) <= 40 /\
                     In (Test_Type (row r)) ["Coding"] /\
                     Remote_Testing_Support (row r) = "Yes")
           (recommendations resp).
Proof.
  eexists. split; [reflexivity|]. split; [reflexivity|].
  destruct (filters_are_conjunctive offline plain_text
              (keyword_engine sample_catalog) (Some "coding") None (Some 40)
              (Some ["Coding"]) true 10 _ eq_refl) as (cands & _ & _ & HF).
  eapply Forall_impl; [|exact HF]. cbv beta. intros r (Hd & Ht & Hr).
  split; [apply (Hd 40 eq_refl); discriminate|].
  split; [exact (Ht "Coding" [] eq_refl) | exact (Hr eq_refl)].
Defined.

(** Switching on the duration filter or the remote filter of a request
    never makes [total_found] larger. *)
Theorem filters_never_add_results
    (requests_get soup_get_text : string -> result string)
    (self : Engine) (query url : option string)
    (max_duration max_duration0 : option Z)
    (types : option (list string)) (remote_only remote_only0 : bool) (top_k : Z)
    (resp resp0 : Response) :
  max_duration0 = None \/ max_duration0 = max_duration ->
  remote_only0 = false \/ remote_only0 = remote_only ->
  get_recommendations requests_get soup_get_text self query url max_duration
    types remote_only top_k = Ok resp ->
  get_recommendations requests_get soup_get_text self query url max_duration0
    types remote_only0 top_k = Ok resp0 ->
  (total_found resp <= total_found resp0)%nat.
Proof.
  intros Hd Hro H H0.
  destruct (get_recommendations_inv _ _ _ _ _ _ _ _ _ _ H)
    as (cands & Hc & Hq & _ & Hr & Ht).
  destruct (get_recommendations_inv _ _ _ _ _ _ _ _ _ _ H0)
    as (cands0 & Hc0 & Hq0 & _ & Hr0 & Ht0).
  rewrite Hq in Hc. rewrite Hq0, Hc in Hc0. injection Hc0 as <-.
  rewrite Ht, Ht0, Hr, Hr0. apply slice_to_length_mono, filter_length_mono.
  intros r. unfold passes. intros Hp.
  rewrite !andb_true_iff in Hp. destruct Hp as [[Hpd Hpt] Hpr].
  rewrite Hpt. destruct Hd as [->| ->], Hro as [->| ->];
    rewrite ?Hpd, ?Hpr; reflexivity.
Qed.

Lemma filters_never_add_results_witness :
  exists resp resp0 : Response,
    get_recommendations offline plain_text (keyword_engine sample_catalog)
      (Some "python") None (Some 30) None true 10 = Ok resp /\
    get_recommendations offline plain_text (keyword_engine sample_catalog)
      (Some "python") None None None false 10 = Ok resp0 /\
    total_found resp = 1%nat /\ total_found resp0 = 3%nat /\
    (total_found resp <= total_found resp0)%nat.
Proof.
  eexists. eexists. split; [reflexivity|]. split; [reflexivity|].
  split; [reflexivity|]. split; [reflexivity|].
  exact (filters_never_add_results offline plain_text
           (keyword_engine sample_catalog) (Some "python") None (Some 30) None
           None true false 10 _ _ (or_introl eq_refl) (or_introl eq_refl)
           eq_refl eq_refl).
Defined.

(** The three filters can be applied in any order, and applying one twice
    changes nothing more. *)
Theorem filters_commute (df : list Ranked) (d : Z) (types : list string) (b : bool) :
  filter_by_duration (filter_by_test_type df types) d
    = filter_by_test_type (filter_by_duration df d) types /\
  filter_by_duration (filter_by_remote df b) d
    = filter_by_remote (filter_by_duration df d) b /\
  filter_by_test_type (filter_by_remote df b) types
    = filter_by_remote (filter_by_test_type df types) b /\
  filter_by_duration (filter_by_duration df d) d = filter_by_duration df d /\
  filter_by_test_type (filter_by_test_type df types) types
    = filter_by_test_type df types /\
  filter_by_remote (filter_by_remote df b) b = filter_by_remote df b.
Proof.
  unfold filter_by_duration, filter_by_test_type, filter_by_remote.
  destruct types as [|t ts], b; repeat split;
    rewrite ?filter_and; try reflexivity;
    apply filter_ext; intros r;
    try apply andb_comm; apply andb_diag.
Qed.

(** ** The URL of a request *)

Lemma resolve_query_error
    (requests_get soup_get_text : string -> result string)
    (self : Engine) (query : option string) (u : string)
    (types : option (list string)) :
  Py.startswith (extract_text_from_url requests_get soup_get_text u) "Error" = true ->
  resolve_query requests_get soup_get_text self query (Some u) types
  = resolve_query requests_get soup_get_text self query None types.
Proof.
  intros H. unfold resolve_query. rewrite H. simpl. now destruct u.
Qed.

Lemma get_recommendations_resolve
    (requests_get soup_get_text : string -> result string)
    (self : Engine) (query query' url url' : option string)
    (max_duration : option Z) (types : option (list string))
    (remote_only : bool) (top_k : Z) :
  resolve_query requests_get soup_get_text self query url types
  = resolve_query requests_get soup_get_text self query' url' types ->
  get_recommendations requests_get soup_get_text self query url max_duration
    types remote_only top_k
  = get_recommendations requests_get soup_get_text self query' url' max_duration
      types remote_only top_k.
Proof. intros E. unfold get_recommendations. now rewrite E. Qed.

(** A URL whose page cannot be fetched or parsed is ignored: the request is
    answered as the same request without URL, [job_requirements] absent. *)
Theorem failed_url_is_ignored
    (requests_get soup_get_text : string -> result string)
    (self : Engine) (query : option string) (u : string)
    (max_duration : option Z) (types : option (list string))
    (remote_only : bool) (top_k : Z) (e : exn) :
  (body <- requests_get u ;; soup_get_text body) = Raise e ->
  get_recommendations requests_get soup_get_text self query (Some u)
    max_duration types remote_only top_k
  = get_recommendations requests_get soup_get_text self query None
      max_duration types remote_only top_k.
Proof.
  intros H. apply get_recommendations_resolve, resolve_query_error.
  unfold extract_text_from_url.
  destruct (requests_get u) as [body|e']; cbn [bind] in *.
  - rewrite H. cbn [bind].
    apply (prefix_append "Error" (" extracting text: " ++ exn_str e)).
  - apply (prefix_append "Error" (" extracting text: " ++ exn_str e')).
Qed.

Lemma failed_url_is_ignored_witness :
  get_recommendations offline plain_text (keyword_engine sample_catalog)
    (Some "python") (Some "https://example.com/job") None None false 10
  = get_recommendations offline plain_text (keyword_engine sample_catalog)
      (Some "python") None None None false 10.
Proof.
  exact (failed_url_is_ignored offline plain_text (keyword_engine sample_catalog)
           (Some "python") "https://example.com/job" None None false 10
           (RequestException "connection refused") eq_refl).
Defined.

(** A page that was fetched but whose cleaned text begins with the word
    Error is taken for a failed fetch: no requirement is extracted from it
    and the request is answered as the same request without URL. *)
Theorem error_prefixed_page_is_ignored
    (requests_get soup_get_text : string -> result string)
    (self : Engine) (query : option string) (u body text : string)
    (max_duration : option Z) (types : option (list string))
    (remote_only : bool) (top_k : Z) :
  requests_get u = Ok body -> soup_get_text body = Ok text ->
  Py.startswith (Py.str_take 5000 (Py.collapse_spaces text)) "Error" = true ->
  get_recommendations requests_get soup_get_text self query (Some u)
    max_duration types remote_only top_k
  = get_recommendations requests_get soup_get_text self query None
      max_duration types remote_only top_k.
Proof.
  intros Hb Ht H. apply get_recommendations_resolve, resolve_query_error.
  unfold extract_text_from_url. rewrite Hb. cbn [bind]. rewrite Ht. exact H.
Qed.

Lemma error_prefixed_page_is_ignored_witness :
  get_recommendations error_page plain_text (keyword_engine sample_catalog)
    None (Some "https://example.com/sre") None None false 10
  = get_recommendations error_page plain_text (keyword_engine sample_catalog)
      None None None None false 10.
Proof.
  exact (error_prefixed_page_is_ignored error_page plain_text
           (keyword_engine sample_catalog) None "https://example.com/sre" _ _
           None None false 10 eq_refl eq_refl eq_refl).
Defined.

(** Without Gemini client, a URL whose page yields at least one skill
    keyword replaces the caller's query by the keywords joined with spaces
    and, when the caller names no test type, restricts the answer to the
    test types Coding and Cognitive. *)
Theorem heuristic_url_restricts_test_types
    (requests_get soup_get_text : string -> result string)
    (self : Engine) (query : option string) (u : string)
    (max_duration : option Z) (types : option (list string))
    (remote_only : bool) (top_k : Z) (resp : Response) :
  gemini_client self = None ->
  truthy_str (Some u) = true ->
  Py.startswith (extract_text_from_url requests_get soup_get_text u) "Error" = false ->
  skills (heuristic_requirements (extract_text_from_url requests_get soup_get_text u))
    <> [] ->
  truthy_list types = false ->
  get_recommendations requests_get soup_get_text self query (Some u)
    max_duration types remote_only top_k = Ok resp ->
  search_query resp
    = Some (Py.join " " (skills (heuristic_requirements
                                   (extract_text_from_url requests_get soup_get_text u)))) /\
  job_requirements resp
    = Some (heuristic_requirements (extract_text_from_url requests_get soup_get_text u)) /\
  Forall (fun r => Test_Type (row r) = "Coding" \/ Test_Type (row r) = "Cognitive")
         (recommendations resp).
Proof.
  intros Hg Hu Herr Hsk Hty H.
  assert (E : resolve_query requests_get soup_get_text self query (Some u) types
              = (Some (Py.join " " (skills (heuristic_requirements
                         (extract_text_from_url requests_get soup_get_text u)))),
                 Some (heuristic_requirements
                         (extract_text_from_url requests_get soup_get_text u)),
                 Some ["Coding"; "Cognitive"])).
  { unfold resolve_query. rewrite Hu, Herr. cbn [negb].
    unfold extract_job_requirements. rewrite Hg.
    destruct (skills (heuristic_requirements
                        (extract_text_from_url requests_get soup_get_text u)))
      as [|s ss] eqn:Es; [congruence|].
    rewrite Hty. reflexivity. }
  destruct (get_recommendations_inv _ _ _ _ _ _ _ _ _ _ H)
    as (cands & _ & Hq & Hj & Hr & _).
  rewrite E in Hq, Hj, Hr. cbn [fst snd] in Hq, Hj, Hr.
  split; [assumption|]. split; [assumption|].
  rewrite Hr. apply slice_to_sub. intros n. apply firstn_Forall.
  apply Forall_forall. intros r Hin. apply filter_In in Hin.
  destruct Hin as [_ Hp]. unfold passes in Hp.
  rewrite !andb_true_iff in Hp. destruct Hp as [[_ Ht] _].
  cbn [existsb] in Ht. rewrite orb_false_r in Ht.
  apply orb_true_iff in Ht. destruct Ht as [Ht|Ht];
    apply String.eqb_eq in Ht; auto.
Qed.

Lemma heuristic_url_restricts_test_types_witness :
  exists resp : Response,
    get_recommendations python_page plain_text (keyword_engine sample_catalog)
      (Some "teamwork") (Some "https://example.com/job") None None false 10
    = Ok resp /\
    search_query resp = Some "python sql" /\
    map row (recommendations resp) = [python_row; java_row] /\
    Forall (fun r => Test_Type (row r) = "Coding" \/ Test_Type (row r) = "Cognitive")
           (recommendations resp).
Proof.
  destruct (get_recommendations python_page plain_text
              (keyword_engine sample_catalog) (Some "teamwork")
              (Some "https://example.com/job") None None false 10)
    as [resp|e] eqn:E; [|vm_compute in E; discriminate E].
  exists resp. split; [reflexivity|].
  destruct (heuristic_url_restricts_test_types python_page plain_text
              (keyword_engine sample_catalog) (Some "teamwork")
              "https://example.com/job" None None false 10 resp
              eq_refl eq_refl
              ltac:(vm_compute; reflexivity)
              ltac:(vm_compute; discriminate)
              eq_refl E)
    as (Hq & _ & HF).
  split; [rewrite Hq; vm_compute; reflexivity|].
  split; [|exact HF].
  vm_compute in E. injection E as <-. reflexivity.
Defined.

(** ** Failure of a request *)

Lemma semantic_search_raises (self : Engine) (query : string) (top_k : Z) (e : exn) :
  semantic_search self query top_k = Raise e ->
  catalog self = [] /\ model self = None /\
  e = ValueError "max() arg is an empty sequence".
Proof.
  intros H. destruct (model self) as [cosine|] eqn:Hm.
  - destruct (semantic_search_ok self cosine query top_k Hm) as (res & E & _).
    rewrite E in H. discriminate.
  - rewrite semantic_search_fallback in H by assumption.
    destruct (catalog self) as [|r0 cat] eqn:Ec.
    + rewrite keyword_search_empty in H by assumption. injection H as <-. auto.
    + destruct (keyword_search_ok self query top_k) as (res & E & _).
      { rewrite Ec. discriminate. }
      rewrite E in H. discriminate.
Qed.

Lemma get_recommendations_raises_only_on_empty_catalog_aux
    (requests_get soup_get_text : string -> result string)
    (self : Engine) (query url : option string) (max_duration : option Z)
    (types : option (list string)) (remote_only : bool) (top_k : Z) :
  match get_recommendations requests_get soup_get_text self query url
          max_duration types remote_only top_k with
  | Ok resp => True
  | Raise e =>
      catalog self = [] /\ model self = None /\
      e = ValueError "max() arg is an empty sequence" /\
      truthy_str (fst (fst (resolve_query requests_get soup_get_text self
                              query url types))) = true
  end.
Proof.
  unfold get_recommendations.
  destruct (resolve_query requests_get soup_get_text self query url types)
    as [[sq jr] ty]. cbn [fst].
  destruct (candidates self sq top_k) as [cands|e] eqn:Hc; cbn [bind]; [exact I|].
  destruct (truthy_str sq) eqn:Hq.
  - unfold candidates in Hc. destruct sq as [[|c q]|]; try discriminate.
    destruct (semantic_search_raises _ _ _ _ Hc) as (H1 & H2 & H3). auto.
  - rewrite candidates_default in Hc by assumption. discriminate.
Qed.

(** In basic mode, that is without encoder and without Gemini client,
    [get_recommendations] raises exactly when the catalog is empty and the
    request ends up with a search query; the exception is then the
    [ValueError] of [max(scores)].  In every other case it returns a
    response. *)
Theorem basic_mode_raises_only_on_empty_catalog
    (requests_get soup_get_text : string -> result string)
    (self : Engine) (query url : option string) (max_duration : option Z)
    (types : option (list string)) (remote_only : bool) (top_k : Z) :
  model self = None -> gemini_client self = None ->
  match get_recommendations requests_get soup_get_text self query url
          max_duration types remote_only top_k with
  | Ok resp => catalog self <> [] \/ truthy_str (search_query resp) = false
  | Raise e =>
      catalog self = [] /\
      e = ValueError "max() arg is an empty sequence" /\
      truthy_str (fst (fst (resolve_query requests_get soup_get_text self
                              query url types))) = true
  end.
Proof.
  intros Hm _.
  pose proof (get_recommendations_raises_only_on_empty_catalog_aux
                requests_get soup_get_text self query url max_duration types
                remote_only top_k) as Hr.
  destruct (get_recommendations requests_get soup_get_text self query url
              max_duration types remote_only top_k) as [resp|e] eqn:E.
  - destruct (catalog self) as [|r0 cat] eqn:Ec; [|left; discriminate].
    right. destruct (truthy_str (search_query resp)) eqn:Hq; [|reflexivity].
    exfalso. destruct (get_recommendations_inv _ _ _ _ _ _ _ _ _ _ E)
      as (cands & Hc & _).
    unfold candidates in Hc.
    destruct (search_query resp) as [[|c q]|]; try discriminate.
    rewrite semantic_search_fallback in Hc by assumption.
    rewrite keyword_search_empty in Hc by assumption. discriminate.
  - destruct Hr as (H1 & _ & H3 & H4). auto.
Qed.

Lemma basic_mode_raises_only_on_empty_catalog_witness :
  match get_recommendations offline plain_text (keyword_engine sample_catalog)
          (Some "python") None None None false 10 with
  | Ok resp => sample_catalog <> [] \/ truthy_str (search_query resp) = false
  | Raise e =>
      sample_catalog = [] /\
      e = ValueError "max() arg is an empty sequence" /\
      truthy_str (fst (fst (resolve_query offline plain_text
                              (keyword_engine sample_catalog)
                              (Some "python") None None))) = true
  end.
Proof.
  exact (basic_mode_raises_only_on_empty_catalog offline plain_text
           (keyword_engine sample_catalog) (Some "python") None None None
           false 10 eq_refl eq_refl).
Defined.

(** ** The route [POST /recommend] *)


(** ** The best keyword match *)

Lemma round1_eq (x y : Q) : (x == y)%Q -> (Py.round1 x == Py.round1 y)%Q.
Proof.
  intros E. apply Qle_antisym; apply round1_mono; rewrite E; apply Qle_refl.
Qed.

Lemma fold_max_le (l : list Z) (m : Z) :
  0 <= m -> Forall (fun s => s <= m) l -> fold_right Z.max 0 l <= m.
Proof. intros Hm. induction 1 as [|a l Ha _ IH]; simpl; lia. Qed.

(** When some row of the catalog contains a term of the query, the first
    result of the keyword strategy (for [top_k >= 1]) is a row with the
    largest number of matched terms, and its relevance is 100. *)
Theorem keyword_best_match_first (self : Engine) (query : string) (top_k : Z) :
  1 <= top_k -> 0 < keyword_max (catalog self) query ->
  exists (r : Ranked) (rest : list Ranked),
    _keyword_search self query top_k = Ok (r :: rest) /\
    keyword_raw query (row r) = keyword_max (catalog self) query /\
    (Relevance_Score r == 100)%Q.
Proof.
  intros Hk Hmax.
  assert (Hne : catalog self <> []).
  { intros E. unfold keyword_max in Hmax. rewrite E in Hmax. simpl in Hmax. lia. }
  destruct (keyword_search_pairs self query top_k Hne) as (res & E & HF).
  destruct (top_pairs Z.leb (map (keyword_raw query) (catalog self)) top_k)
    as [|p ps] eqn:Ep.
  { exfalso. apply (f_equal (@List.length _)) in Ep. unfold top_pairs in Ep.
    rewrite slice_to_length, length_rev in Ep by lia.
    rewrite (Permutation_length (sort_keys_perm Z.leb _)), enumerate_length,
      length_map in Ep.
    destruct (catalog self); [congruence|]. simpl in Ep. lia. }
  inversion HF as [|? r ? rest (Hl & Hn & Hs & Hsc) HF']; subst.
  exists r, rest. split; [assumption|].
  assert (Hraw : keyword_raw query (row r) = keyword_max (catalog self) query).
  { apply Z.le_antisymm.
    - apply keyword_raw_le_max. eapply nth_error_In, Hn.
    - unfold keyword_max. apply fold_max_le; [apply keyword_raw_nonneg|].
      apply Forall_forall. intros key Hkey. rewrite <- Hs, <- Z.leb_le.
      eapply top_pairs_head_max; eauto using Zleb_total, Zleb_trans. }
  split; [assumption|].
  rewrite Hsc. unfold keyword_relevance, keyword_divisor. rewrite Hraw.
  destruct (Z.ltb_spec 0 (keyword_max (catalog self) query)); [|lia].
  apply Qeq_trans with (Py.round1 (inject_Z 100)); [|apply (round1_Z 100)].
  apply round1_eq. change (inject_Z 100) with 100%Q. field.
  intros E0. assert (H0 : (0 < inject_Z (keyword_max (catalog self) query))%Q).
  { change 0%Q with (inject_Z 0). now rewrite <- Zlt_Qlt. }
  rewrite E0 in H0. discriminate H0.
Qed.

Lemma keyword_best_match_first_witness :
  exists (r : Ranked) (rest : list Ranked),
    _keyword_search (keyword_engine sample_catalog) "java sql python" 2
    = Ok (r :: rest) /\
    keyword_raw "java sql python" (row r) = 2 /\
    (Relevance_Score r == 100)%Q.
Proof.
  exact (keyword_best_match_first (keyword_engine sample_catalog)
           "java sql python" 2 ltac:(lia) eq_refl).
Defined.

(** ** The test types of the catalog *)

Lemma string_leb_iff (a b : string) :
  String.leb a b = true <-> a = b \/ OrderedTypeEx.String_as_OT.lt a b.
Proof.
  unfold String.leb. destruct (String.compare a b) eqn:E.
  - apply OrderedTypeEx.String_as_OT.cmp_eq in E. tauto.
  - apply OrderedTypeEx.String_as_OT.cmp_lt in E. tauto.
  - split; [discriminate|]. intros [->|H].
    + assert (String.compare b b = Eq) by now apply OrderedTypeEx.String_as_OT.cmp_eq.
      congruence.
    + apply OrderedTypeEx.String_as_OT.cmp_lt in H. unfold OrderedTypeEx.String_as_OT.cmp in H. congruence.
Qed.

Lemma string_leb_trans (a b c : string) :
  String.leb a b = true -> String.leb b c = true -> String.leb a c = true.
Proof.
  rewrite !string_leb_iff. intros [->|H1] [->|H2]; auto.
  right. eapply OrderedTypeEx.String_as_OT.lt_trans; eassumption.
Qed.

Lemma unique_from_In (seen l : list string) (x : string) :
  In x (unique_from seen l) <-> In x l /\ ~ In x seen.
Proof.
  revert seen. induction l as [|a l IH]; intros seen; simpl; [tauto|].
  destruct (in_dec string_dec a seen) as [Ha|Ha].
  - rewrite IH. split; [tauto|]. intros [[->|H] Hn]; tauto.
  - simpl. rewrite IH. simpl. split.
    + intros [->|[H Hn]]; tauto.
    + intros [[->|H] Hn]; [tauto|].
      destruct (string_dec a x) as [->|Hax]; tauto.
Qed.

Lemma unique_from_NoDup (seen l : list string) : NoDup (unique_from seen l).
Proof.
  revert seen. induction l as [|a l IH]; intros seen; simpl; [constructor|].
  destruct (in_dec string_dec a seen); [apply IH|].
  constructor; [|apply IH]. rewrite unique_from_In. simpl. tauto.
Qed.

Lemma sorted_perm (l : list string) : Permutation (sorted l) l.
Proof.
  unfold sorted.
  rewrite (Permutation_map snd (sort_keys_perm String.leb (enumerate l))).
  unfold enumerate. now rewrite map_snd_enumerate_from.
Qed.

Lemma StronglySorted_map {A B : Type} (R : B -> B -> Prop) (f : A -> B) (l : list A) :
  StronglySorted (fun x y => R (f x) (f y)) l -> StronglySorted R (map f l).
Proof.
  induction 1 as [|a l Hs IH Hf]; simpl; constructor; [assumption|].
  apply Forall_map. exact Hf.
Qed.

Lemma sorted_ascending (l : list string) :
  StronglySorted (fun a b => String.leb a b = true) (sorted l).
Proof.
  unfold sorted. apply StronglySorted_map.
  eapply StronglySorted_impl;
    [|apply (sort_keys_sorted String.leb String.leb_total string_leb_trans),
        enumerate_sorted].
  intros x y _ _ [H _]. exact H.
Qed.

Lemma StronglySorted_NoDup {A : Type} (R : A -> A -> Prop) (l : list A) :
  StronglySorted R l -> NoDup l ->
  StronglySorted (fun a b => R a b /\ a <> b) l.
Proof.
  induction 1 as [|a l Hs IH Hf]; intros Hn; constructor.
  - apply IH. now inversion Hn.
  - inversion Hn as [|? ? Hna _]; subst.
    rewrite Forall_forall in *. intros b Hb. split; [now apply Hf|].
    intros ->. contradiction.
Qed.

Lemma get_test_types_sorted_distinct_aux (self : Engine) :
  (forall t, In t (get_test_types self)
             <-> exists r, In r (catalog self) /\ Test_Type r = t) /\
  NoDup (get_test_types self).
Proof.
  unfold get_test_types.
  assert (Hp := sorted_perm (unique (map Test_Type (catalog self)))).
  split.
  - intros t. split.
    + intros H. apply (Permutation_in _ Hp) in H. apply unique_from_In in H.
      destruct H as [H _]. apply in_map_iff in H. destruct H as (r & E & Hr). eauto.
    + intros (r & Hr & <-). apply (Permutation_in _ (Permutation_sym Hp)).
      apply unique_from_In. split; [now apply in_map | simpl; tauto].
  - apply (Permutation_NoDup (Permutation_sym Hp)). apply unique_from_NoDup.
Qed.

(** [get_test_types] lists exactly the test types that occur in the
    catalog, each once, in ascending order. *)
Theorem get_test_types_sorted_distinct (self : Engine) :
  (forall t, In t (get_test_types self)
             <-> exists r, In r (catalog self) /\ Test_Type r = t) /\
  NoDup (get_test_types self) /\
  StronglySorted (fun a b => String.leb a b = true /\ a <> b) (get_test_types self).
Proof.
  destruct (get_test_types_sorted_distinct_aux self) as (Hin & Hnd).
  split; [assumption|]. split; [assumption|].
  apply StronglySorted_NoDup; [|assumption].
  unfold get_test_types. apply sorted_ascending.
Qed.

(** ** Catalog statistics *)

Lemma indicator_sum (ks : list string) (x : string) :
  NoDup ks -> In x ks ->
  list_sum (map (fun t => if string_dec x t then 1%nat else 0%nat) ks) = 1%nat.
Proof.
  induction 1 as [|k ks Hk Hn IH]; simpl; [tauto|].
  assert (Hz : forall l, ~ In x l ->
             list_sum (map (fun t => if string_dec x t then 1%nat else 0%nat) l) = 0%nat).
  { induction l as [|a l IHl]; simpl; [reflexivity|]. intros Hx.
    destruct (string_dec x a) as [->|_]; [tauto|]. apply IHl. tauto. }
  intros [->|Hx].
  - destruct (string_dec x x); [|congruence]. now rewrite Hz.
  - destruct (string_dec x k) as [->|_]; [contradiction|]. now apply IH.
Qed.

Lemma count_occ_sum (ks l : list string) :
  NoDup ks -> incl l ks ->
  list_sum (map (count_occ string_dec l) ks) = List.length l.
Proof.
  intros Hn. induction l as [|x l IH]; intros Hi.
  - clear. induction ks as [|k ks IHks]; simpl; [reflexivity | exact IHks].
  - assert (E : forall ks',
               list_sum (map (count_occ string_dec (x :: l)) ks')
               = (list_sum (map (fun t => if string_dec x t then 1%nat else 0%nat) ks')
                  + list_sum (map (count_occ string_dec l) ks'))%nat).
    { induction ks' as [|k ks' IHk]; simpl; [reflexivity|].
      simpl in IHk. rewrite IHk. destruct (string_dec x k); lia. }
    rewrite E, indicator_sum, IH; auto.
    + intros y Hy. apply Hi. now right.
    + apply Hi. now left.
Qed.

(** In the catalog statistics the count of remote-capable rows and the
    count of adaptive rows are at most the number of rows; a test type is a
    key of the per-type counts exactly when [get_test_types] lists it, its
    count is the number of rows of that type, and the counts add up to the
    number of rows. *)
Theorem catalog_stats_counts (self : Engine) :
  let st := get_catalog_stats self in
  (Stats.remote_supported st <= Stats.total_assessments st)%nat /\
  (Stats.adaptive_tests st <= Stats.total_assessments st)%nat /\
  (forall t, Stats.test_types st t <> None <-> In t (get_test_types self)) /\
  (forall t n, Stats.test_types st t = Some n ->
               n = List.length (filter (fun r => String.eqb (Test_Type r) t) (catalog self))) /\
  list_sum (map (fun t => match Stats.test_types st t with
                          | Some n => n
                          | None => 0%nat
                          end) (get_test_types self))
  = Stats.total_assessments st.
Proof.
  cbv zeta. unfold get_catalog_stats. cbn [Stats.remote_supported
    Stats.adaptive_tests Stats.total_assessments Stats.test_types].
  destruct (get_test_types_sorted_distinct_aux self) as (Hin & Hnd).
  assert (Hc : forall t, count_occ string_dec (map Test_Type (catalog self)) t
                         = List.length (filter (fun r => String.eqb (Test_Type r) t)
                                               (catalog self))).
  { clear. intros t. induction (catalog self) as [|r cat IH]; simpl; [reflexivity|].
    destruct (string_dec (Test_Type r) t) as [E|N].
    - rewrite E, String.eqb_refl. simpl. now rewrite IH.
    - apply String.eqb_neq in N. now rewrite N. }
  split; [apply filter_length_le|]. split; [apply filter_length_le|].
  split; [|split].
  - intros t. rewrite Hin. unfold value_counts.
    destruct (count_occ string_dec (map Test_Type (catalog self)) t) eqn:E.
    + split; [congruence|]. intros (r & Hr & <-).
      assert (H : (count_occ string_dec (map Test_Type (catalog self)) (Test_Type r) > 0)%nat).
      { apply count_occ_In. now apply in_map. }
      lia.
    + split; [|discriminate]. intros _.
      assert (H : In t (map Test_Type (catalog self))).
      { apply (count_occ_In string_dec). lia. }
      apply in_map_iff in H. destruct H as (r & E' & Hr). eauto.
  - intros t n. unfold value_counts. rewrite <- Hc.
    destruct (count_occ string_dec (map Test_Type (catalog self)) t);
      [discriminate|]. now intros [= <-].
  - rewrite <- (length_map Test_Type (catalog self)).
    rewrite <- (count_occ_sum (get_test_types self)); [|assumption|].
    + apply f_equal, map_ext. intros t. unfold value_counts.
      now destruct (count_occ string_dec (map Test_Type (catalog self)) t).
    + intros t Ht. apply Hin. apply in_map_iff in Ht.
      destruct Ht as (r & E & Hr). eauto.
Qed.

Lemma sum_bounds (l : list Z) (lo hi : Z) :
  Forall (fun x => lo <= x <= hi) l ->
  Z.of_nat (List.length l) * lo <= fold_right Z.add 0 l
  <= Z.of_nat (List.length l) * hi.
Proof.
  induction 1 as [|x l Hx _ IH]; [simpl; lia|].
  cbn [List.length fold_right]. rewrite Nat2Z.inj_succ. lia.
Qed.

Lemma mean_bounds (l : list Z) (lo hi : Z) (a : Q) :
  mean l = Some a -> Forall (fun x => lo <= x <= hi) l ->
  (inject_Z lo <= a <= inject_Z hi)%Q.
Proof.
  intros Hm Hb. pose proof (sum_bounds l lo hi Hb) as [H1 H2].
  assert (Hn : 0 < Z.of_nat (List.length l)).
  { destruct l; [discriminate|]. simpl. lia. }
  assert (HnQ : (0 < inject_Z (Z.of_nat (List.length l)))%Q).
  { change 0%Q with (inject_Z 0). now rewrite <- Zlt_Qlt. }
  assert (E : a = Qdiv (inject_Z (fold_right Z.add 0 l))
                       (inject_Z (Z.of_nat (List.length l)))).
  { destruct l; [discriminate|]. now injection Hm as <-. }
  rewrite E. split.
  - apply Qle_shift_div_l; [assumption|].
    rewrite <- inject_Z_mult, <- Zle_Qle. lia.
  - apply Qle_shift_div_r; [assumption|].
    rewrite <- inject_Z_mult, <- Zle_Qle. lia.
Qed.

(** For a catalog of fewer than 2^21 rows whose durations all lie between
    two integers [lo] and [hi] of magnitude at most 2^31 (bounds within
    which the cast changes no duration and the float sum of the source is
    exact), the average duration of the statistics lies between [lo] and
    [hi]; it is missing exactly for the empty catalog. *)
Theorem catalog_stats_avg_duration (self : Engine) (lo hi : Z) :
  - 2 ^ 31 <= lo -> hi <= 2 ^ 31 ->
  Z.of_nat (List.length (catalog self)) < 2 ^ 21 ->
  Forall (fun r => lo <= Duration r <= hi) (catalog self) ->
  match Stats.avg_duration (get_catalog_stats self) with
  | None => catalog self = []
  | Some a => catalog self <> [] /\ (inject_Z lo <= a <= inject_Z hi)%Q
  end.
Proof.
  intros Hlo Hhi _ Hb. unfold get_catalog_stats. cbn [Stats.avg_duration].
  destruct (mean (map (fun r => Py.astype_int (Duration r)) (catalog self)))
    as [m|] eqn:Em; cbn [option_map].
  - split; [intros E; rewrite E in Em; discriminate|].
    apply round1_between. apply (mean_bounds _ _ _ _ Em).
    apply Forall_map. eapply Forall_impl; [|exact Hb]. cbv beta.
    intros r Hr. rewrite astype_int_id; [assumption|]. unfold int64. lia.
  - destruct (catalog self); [reflexivity | discriminate].
Qed.

Lemma catalog_stats_avg_duration_witness :
  exists a : Q,
    Stats.avg_duration (get_catalog_stats (keyword_engine sample_catalog)) = Some a /\
    (inject_Z 30 <= a <= inject_Z 60)%Q.
Proof.
  pose proof (catalog_stats_avg_duration (keyword_engine sample_catalog) 30 60
                ltac:(lia) ltac:(lia) ltac:(simpl; lia)
                ltac:(repeat constructor; simpl; lia)) as H.
  destruct (Stats.avg_duration (get_catalog_stats (keyword_engine sample_catalog)))
    as [a|]; [|discriminate H].
  exists a. split; [reflexivity | exact (proj2 H)].
Defined.

(** ** The cleaned text of a page *)

Lemma collapse_single_spaced (inrun : bool) (s : string) :
  single_spaced_from inrun (Py.collapse_from inrun s) = true.
Proof.
  revert inrun. induction s as [|c s IH]; intros inrun; simpl; [reflexivity|].
  destruct (Py.isspace c) eqn:Hc.
  - destruct inrun; [apply IH|]. simpl. apply IH.
  - simpl. rewrite Hc. apply IH.
Qed.

Lemma str_take_single_spaced (n : nat) (b : bool) (s : string) :
  single_spaced_from b s = true -> single_spaced_from b (Py.str_take n s) = true.
Proof.
  unfold Py.str_take. revert b s.
  induction n as [|n IH]; intros b [|c s]; simpl; try reflexivity.
  destruct (Py.isspace c).
  - rewrite !andb_true_iff. intros [H1 H2]. split; [assumption|]. now apply IH.
  - apply IH.
Qed.

(** The text extracted from a page that could be fetched and parsed holds
    no white space other than the space and never two spaces in a row. *)
Theorem extracted_text_single_spaced
    (requests_get soup_get_text : string -> result string) (url body text : string) :
  requests_get url = Ok body -> soup_get_text body = Ok text ->
  single_spaced_from false (extract_text_from_url requests_get soup_get_text url)
  = true.
Proof.
  intros Hb Ht. unfold extract_text_from_url. rewrite Hb. cbn [bind]. rewrite Ht.
  cbn [bind]. apply str_take_single_spaced, collapse_single_spaced.
Qed.

Lemma extracted_text_single_spaced_witness :
  extract_text_from_url python_page plain_text "https://example.com/job"
  = "We need a Python developer with SQL" /\
  single_spaced_from false
    (extract_text_from_url python_page plain_text "https://example.com/job") = true.
Proof.
  split; [vm_compute; reflexivity|].
  exact (extracted_text_single_spaced python_page plain_text
           "https://example.com/job" _ _ eq_refl eq_refl).
Defined.

(** ** The vocabulary of the heuristic extractor *)

Lemma lower_char_idem (c : ascii) :
  Py.lower_char (Py.lower_char c) = Py.lower_char c.
Proof. destruct c as [[] [] [] [] [] [] [] []]; reflexivity. Qed.

Lemma lower_idem (s : string) : Py.lower (Py.lower s) = Py.lower s.
Proof.
  induction s as [|c s IH]; simpl; [reflexivity|].
  now rewrite lower_char_idem, IH.
Qed.

Lemma match_atoms_expansions (p : Re.alternative) (s : string) (n : nat) :
  Forall (fun a => match a with
                   | Re.Lit c | Re.Opt c => Py.lower_char c = c
                   end) p ->
  Py.lower s = s ->
  In n (Re.match_atoms p s) -> In (substring 0 n s) (expansions p).
Proof.
  intros Hp. revert s n. induction Hp as [|a p Ha Hp IH]; intros s n Hs Hn.
  - simpl in Hn. destruct Hn as [<-|[]]. destruct s; simpl; auto.
  - assert (Hhead : forall d s', s = String d s' ->
                forall c, Py.lower_char c = c ->
                In n (if Re.eq_char c d then map S (Re.match_atoms p s') else []) ->
                In (substring 0 n s) (map (String c) (expansions p))).
    { intros d s' -> c Hc Hin. simpl in Hs. injection Hs as Hd Hs'.
      destruct (Re.eq_char c d) eqn:E; [|destruct Hin].
      unfold Re.eq_char in E. apply Ascii.eqb_eq in E. rewrite Hc, Hd in E.
      subst d. apply in_map_iff in Hin. destruct Hin as (m & <- & Hm).
      simpl. apply in_map. now apply IH. }
    destruct a as [c|c]; simpl in Hn |- *.
    + destruct s as [|d s']; [destruct Hn|]. now apply (Hhead d s' eq_refl).
    + apply in_app_or in Hn. apply in_or_app. destruct Hn as [Hn|Hn].
      * left. destruct s as [|d s']; [destruct Hn|]. now apply (Hhead d s' eq_refl).
      * right. now apply IH.
Qed.

Lemma findall_from_vocabulary (alts : list Re.alternative) (prev : option ascii)
    (skip : nat) (s w : string) :
  Forall (Forall (fun a => match a with
                           | Re.Lit c | Re.Opt c => Py.lower_char c = c
                           end)) alts ->
  Py.lower s = s ->
  In w (Re.findall_from alts prev skip s) -> In w (flat_map expansions alts).
Proof.
  intros Ha. revert prev skip. induction s as [|c s IH]; intros prev skip Hs Hw.
  - destruct Hw.
  - assert (Hs' : Py.lower s = s) by (simpl in Hs; now injection Hs).
    cbn [Re.findall_from] in Hw.
    destruct skip as [|k]; [|now apply (IH (Some c) k)].
    destruct (Re.match_here alts prev (String c s)) as [n|] eqn:Em;
      [|now apply (IH (Some c) O)].
    destruct Hw as [Hw|Hw]; [subst w|now apply (IH (Some c) (pred n))].
    unfold Re.match_here in Em.
    destruct (Re.boundary prev (get 0 (String c s))); [|discriminate].
    apply find_some in Em. destruct Em as [Hin _].
    apply in_flat_map in Hin. destruct Hin as (a & Hain & Hn).
    apply in_flat_map. exists a. split; [assumption|].
    apply match_atoms_expansions; [|assumption|assumption].
    rewrite Forall_forall in Ha. now apply Ha.
Qed.

Lemma skill_patterns_lower :
  Forall (Forall (Forall (fun a => match a with
                                   | Re.Lit c | Re.Opt c => Py.lower_char c = c
                                   end))) skill_patterns.
Proof. repeat (constructor; try reflexivity). Qed.

(** When the heuristic path answers, the skills it returns hold no
    duplicate and are all taken from twenty fixed lower-case keywords,
    whatever the text is. *)
Theorem heuristic_skills_vocabulary (self : Engine) (text : string) :
  enhancement_unavailable self text ->
  NoDup (skills (extract_job_requirements self text)) /\
  forall s, In s (skills (extract_job_requirements self text)) ->
            In s ["python"; "java"; "javascript"; "sql"; "react"; "node.js";
                  "nodejs"; "angular"; "typescript"; "problem solving";
                  "communication"; "teamwork"; "leadership"; "analytical";
                  "data analysis"; "machine learning"; "cloud"; "aws"; "azure";
                  "gcp"].
Proof.
  intros H. rewrite (extract_job_requirements_heuristic self text H).
  unfold heuristic_requirements. cbn [skills]. split; [apply NoDup_nodup|].
  intros s Hs. apply nodup_In in Hs. apply in_flat_map in Hs.
  destruct Hs as (pattern & Hp & Hs).
  change (In s skill_vocabulary). unfold skill_vocabulary.
  apply in_flat_map. exists pattern. split; [assumption|].
  unfold Re.findall in Hs.
  eapply findall_from_vocabulary; [|apply lower_idem|exact Hs].
  pose proof skill_patterns_lower as Hl. rewrite Forall_forall in Hl.
  now apply Hl.
Qed.

Lemma heuristic_skills_vocabulary_witness :
  NoDup (skills (extract_job_requirements (keyword_engine sample_catalog)
                   "Senior JAVA and Node.js engineer, AWS, teamwork; Java again")) /\
  forall s,
    In s (skills (extract_job_requirements (keyword_engine sample_catalog)
                    "Senior JAVA and Node.js engineer, AWS, teamwork; Java again")) ->
    In s ["python"; "java"; "javascript"; "sql"; "react"; "node.js";
          "nodejs"; "angular"; "typescript"; "problem solving";
          "communication"; "teamwork"; "leadership"; "analytical";
          "data analysis"; "machine learning"; "cloud"; "aws"; "azure";
          "gcp"].
Proof.
  exact (heuristic_skills_vocabulary (keyword_engine sample_catalog)
           "Senior JAVA and Node.js engineer, AWS, teamwork; Java again" I).
Defined.

(** ** Ranking the whole catalog *)

(** With a count of at least the catalog size the ranking operation
    returns every row of the catalog exactly once. *)
Theorem ranking_covers_catalog (self : Engine) (query : string) (top_k : Z)
    (res : list Ranked) :
  Z.of_nat (List.length (catalog self)) <= top_k ->
  semantic_search self query top_k = Ok res ->
  List.length res = List.length (catalog self) /\
  NoDup (map label res) /\
  forall (i : nat) (r : Row),
    nth_error (catalog self) i = Some r ->
    exists x, In x res /\ label x = i /\ row x = r.
Proof.
  intros Hk H.
  destruct (semantic_search_sound _ _ _ _ H) as (Hcat & Hnd & _ & _).
  assert (Hlen : List.length res = List.length (catalog self)).
  { destruct (catalog self) as [|r0 cat] eqn:Ec.
    - pose proof (from_catalog_length _ _ Hcat Hnd) as Hl. simpl in *. lia.
    - destruct (ranking_length self query top_k) as (res' & E & Hl);
        [rewrite Ec; discriminate | lia |].
      rewrite E in H. injection H as <-. rewrite Hl, Ec. lia. }
  split; [assumption|]. split; [assumption|].
  intros i r Hi.
  assert (Hin : In i (map label res)).
  { apply (NoDup_length_incl (l := map label res)
             (l' := seq 0 (List.length (catalog self)))).
    - assumption.
    - rewrite length_seq, length_map. lia.
    - intros j Hj. apply in_map_iff in Hj. destruct Hj as (x & <- & Hx).
      unfold from_catalog in Hcat. rewrite Forall_forall in Hcat.
      apply in_seq. split; [lia|]. simpl. apply nth_error_Some.
      rewrite (Hcat x Hx). discriminate.
    - apply in_seq. split; [lia|]. simpl. apply nth_error_Some. congruence. }
  apply in_map_iff in Hin. destruct Hin as (x & Hl & Hx).
  exists x. split; [assumption|]. split; [assumption|].
  unfold from_catalog in Hcat. rewrite Forall_forall in Hcat.
  specialize (Hcat x Hx). congruence.
Qed.

Lemma ranking_covers_catalog_witness :
  exists res : list Ranked,
    semantic_search (keyword_engine sample_catalog) "sql teamwork" 5 = Ok res /\
    map label res = [1%nat; 0%nat; 2%nat] /\
    List.length res = 3%nat /\
    NoDup (map label res) /\
    forall (i : nat) (r : Row),
      nth_error sample_catalog i = Some r ->
      exists x, In x res /\ label x = i /\ row x = r.
Proof.
  eexists. split; [reflexivity|]. split; [reflexivity|].
  exact (ranking_covers_catalog (keyword_engine sample_catalog) "sql teamwork" 5
           _ ltac:(simpl; lia) eq_refl).
Defined.

(** In the vector strategy the first result (for [top_k >= 1] and a
    catalog with a record) is a row whose cosine to the query is largest in
    the catalog. *)
Theorem semantic_best_match_first (self : Engine) (cosine : string -> string -> Q)
    (query : string) (top_k : Z) :
  model self = Some cosine -> 1 <= top_k -> catalog self <> [] ->
  exists (r : Ranked) (rest : list Ranked),
    semantic_search self query top_k = Ok (r :: rest) /\
    nth_error (catalog self) (label r) = Some (row r) /\
    forall r', In r' (catalog self) ->
      (cosine (_get_combined_text r') query
       <= cosine (_get_combined_text (row r)) query)%Q.
Proof.
  intros Hm Hk Hne.
  destruct (semantic_search_pairs self cosine query top_k Hm) as (res & E & HF).
  destruct (top_pairs Qle_bool
              (map (fun r => cosine (_get_combined_text r) query) (catalog self)) top_k)
    as [|p ps] eqn:Ep.
  { exfalso. apply (f_equal (@List.length _)) in Ep. unfold top_pairs in Ep.
    rewrite slice_to_length, length_rev in Ep by lia.
    rewrite (Permutation_length (sort_keys_perm Qle_bool _)), enumerate_length,
      length_map in Ep.
    destruct (catalog self); [congruence|]. simpl in Ep. lia. }
  inversion HF as [|? r ? rest (Hl & Hn & Hs & Hsc) HF']; subst.
  exists r, rest. split; [assumption|]. split; [assumption|].
  intros r' Hr'. rewrite <- Hs. apply Qle_bool_iff.
  eapply top_pairs_head_max; eauto using Qle_bool_total, Qle_bool_trans.
  apply (in_map (fun r => cosine (_get_combined_text r) query)). exact Hr'.
Qed.

Lemma semantic_best_match_first_witness :
  exists (r : Ranked) (rest : list Ranked),
    semantic_search (containment_engine sample_catalog) "SQL" 2 = Ok (r :: rest) /\
    nth_error sample_catalog (label r) = Some (row r) /\
    forall r', In r' sample_catalog ->
      (containment (_get_combined_text r') "SQL"
       <= containment (_get_combined_text (row r)) "SQL")%Q.
Proof.
  exact (semantic_best_match_first (containment_engine sample_catalog)
           containment "SQL" 2 eq_refl ltac:(lia) ltac:(discriminate)).
Defined.
